(** * cors-anywhere: request admission and response orchestration

    A shallow embedding of [src/lib/cors-anywhere.ts]: the CORS header
    injector ([withCORS]), the URL normaliser ([parseURL]), the redirect
    follower ([onProxyResponse]), the request handler returned by
    [getHandler] and the engine-error handler of [createServer].

    JavaScript strings are modelled as [string], header objects as
    insertion-ordered association lists (the order is what [Object.keys]
    reports), [undefined]/[null] as [None].  Node's [url.parse],
    [url.resolve], [net.isIPv4], [net.isIPv6] and the top-level-domain
    pattern are collaborators outside this file: the development is
    parametrised over them.  The [const] bindings of the source that are
    declared without a value or assigned a second time ([parsedLocation],
    [locationHeader], [server]) are read as mutable variables. *)

From Stdlib Require Import String Ascii List Bool Arith NArith Lia DecimalString DecimalNat.
Import ListNotations.
Open Scope list_scope.
Open Scope string_scope.

(** ** JavaScript values used by the program *)

(** Truthiness of a string-or-undefined value: [undefined], [null] and the
    empty string are falsy. *)
Definition truthy (v : option string) : bool :=
  match v with
  | None => false
  | Some s => negb (s =? "")
  end.

(** [v === s] for a string-or-undefined [v]. *)
Definition strict_eq (v : option string) (s : string) : bool :=
  match v with
  | None => false
  | Some x => x =? s
  end.

(** String concatenation with a possibly undefined operand. *)
Definition js_str (v : option string) : string :=
  match v with
  | None => "undefined"
  | Some s => s
  end.

(** [Number.prototype.toString] on a non-negative integer. *)
Definition toString (n : nat) : string :=
  NilEmpty.string_of_uint (Nat.to_uint n).

Definition is_digit (c : ascii) : bool :=
  let n := nat_of_ascii c in Nat.leb 48 n && Nat.leb n 57.

Definition to_lower_ascii (c : ascii) : ascii :=
  let n := nat_of_ascii c in
  if Nat.leb 65 n && Nat.leb n 90 then ascii_of_nat (n + 32) else c.

Fixpoint toLowerCase (s : string) : string :=
  match s with
  | "" => ""
  | String c t => String (to_lower_ascii c) (toLowerCase t)
  end.

(** Numeric value of a string of decimal digits ([None] stands for NaN). *)
Fixpoint digits_value (acc : N) (s : string) : option N :=
  match s with
  | "" => Some acc
  | String c t =>
      if is_digit c then digits_value (10 * acc + (N_of_ascii c - 48))%N t
      else None
  end.

(** [s.lastIndexOf(p, 0) === 0], i.e. [s] starts with [p]. *)
Definition startsWith (p s : string) : bool := String.prefix p s.

(** Case-insensitive variant, for patterns carrying the [i] flag. *)
Definition startsWith_i (p s : string) : bool :=
  String.prefix (toLowerCase p) (toLowerCase s).

(** [s.slice(1)] *)
Definition slice1 (s : string) : string :=
  match s with
  | "" => ""
  | String _ t => t
  end.

(** [s.endsWith(suffix)]; [/\.html$/.test(s)] is [endsWith ".html" s]. *)
Fixpoint endsWith (suffix s : string) : bool :=
  (s =? suffix) ||
  match s with
  | "" => false
  | String _ t => endsWith suffix t
  end.

(** ** Header objects *)

Module Obj.

(** A JavaScript object with string keys and string values; the list
    order is the property insertion order. *)
Definition t := list (string * string).

(** [o[k]] *)
Fixpoint get (k : string) (o : t) : option string :=
  match o with
  | [] => None
  | (k', v) :: o' => if k =? k' then Some v else get k o'
  end.

(** [o[k] = v]: an existing property keeps its position, a new one is
    appended. *)
Fixpoint set (k v : string) (o : t) : t :=
  match o with
  | [] => [(k, v)]
  | (k', v') :: o' =>
      if k =? k' then (k', v) :: o' else (k', v') :: set k v o'
  end.

(** [delete o[k]] *)
Definition delete (k : string) (o : t) : t :=
  filter (fun kv => negb (k =? fst kv)) o.

(** [Object.keys(o)] *)
Definition keys (o : t) : list string := map fst o.

(** [Object.hasOwnProperty.call(o, k)] *)
Definition has (k : string) (o : t) : bool :=
  existsb (String.eqb k) (keys o).

End Obj.

Definition Headers : Type := Obj.t.

(** [a.join(',')] *)
Definition join_comma (l : list string) : string := String.concat "," l.

(** ** The pattern of [parseURL]

    [/^(?:(https?:)?\/\/)?(([^\/?]+?)(?::(\d{0,5})(?=[\/?]|$))?)([\/?][\S\s]*|$)/i]
    written as a backtracking matcher, one function per sub-pattern, each
    trying its alternatives in the order the regular-expression engine
    does. *)

Module UrlPattern.

Record Match := {
  m_protocol : option string;   (* group 1 *)
  m_host : string;              (* group 2 *)
  m_hostname : string;          (* group 3 *)
  m_port : option string;       (* group 4 *)
  m_path : string               (* group 5 *)
}.

(** [[\/?]] *)
Definition is_sep (c : ascii) : bool :=
  Ascii.eqb c "/"%char || Ascii.eqb c "?"%char.

(** Group 5, [([\/?][\S\s]*|$)]: a separator followed by the whole rest
    of the input, or the end of the input. *)
Definition path_group (s : string) : option string :=
  match s with
  | "" => Some ""
  | String c _ => if is_sep c then Some s else None
  end.

(** [(?=[\/?]|$)] *)
Definition lookahead (s : string) : bool :=
  match s with
  | "" => true
  | String c _ => is_sep c
  end.

(** [(\d{0,5})(?=[\/?]|$)] followed by group 5.  The quantifier is
    greedy: a further digit is taken while the bound [n] allows it, and
    given back when the remainder of the pattern fails. *)
Fixpoint digits_then_path (n : nat) (s : string) : option (string * string) :=
  let stop :=
    if lookahead s then
      match path_group s with
      | Some p => Some ("", p)
      | None => None
      end
    else None in
  match n, s with
  | S n', String c t =>
      if is_digit c then
        match digits_then_path n' t with
        | Some (ds, p) => Some (String c ds, p)
        | None => stop
        end
      else stop
  | _, _ => stop
  end.

(** [(?::(\d{0,5})(?=[\/?]|$))?] followed by group 5: the optional
    group is tried first, then skipped. *)
Definition port_then_path (s : string) : option (option string * string) :=
  let with_port :=
    match s with
    | String ":"%char t => digits_then_path 5 t
    | _ => None
    end in
  match with_port with
  | Some (ds, p) => Some (Some ds, p)
  | None =>
      match path_group s with
      | Some p => Some (None, p)
      | None => None
      end
  end.

(** [([^\/?]+?)] followed by the port group and group 5.  The
    quantifier is lazy: after each character the remainder of the
    pattern is tried before a further character is taken. *)
Fixpoint host_then_rest (s : string) : option (string * option string * string) :=
  match s with
  | "" => None
  | String c t =>
      if is_sep c then None
      else
        match port_then_path t with
        | Some (port, p) => Some (String c "", port, p)
        | None =>
            match host_then_rest t with
            | Some (h, port, p) => Some (String c h, port, p)
            | None => None
            end
        end
  end.

(** Groups 2 to 5 from a given position, with group 1 already decided. *)
Definition groups_from (protocol : option string) (s : string) : option Match :=
  match host_then_rest s with
  | Some (h, port, p) =>
      Some {| m_protocol := protocol;
              m_host := match port with
                        | Some ds => h ++ ":" ++ ds
                        | None => h
                        end;
              m_hostname := h;
              m_port := port;
              m_path := p |}
  | None => None
  end.

(** [(https?:)] under the [i] flag: the matched text and what follows. *)
Definition protocol_group (s : string) : option (string * string) :=
  if startsWith_i "https:" s then Some (substring 0 6 s, substring 6 (String.length s - 6) s)
  else if startsWith_i "http:" s then Some (substring 0 5 s, substring 5 (String.length s - 5) s)
  else None.

(** [\/\/] *)
Definition slashes (s : string) : option string :=
  match s with
  | String "/"%char (String "/"%char t) => Some t
  | _ => None
  end.

(** The whole pattern.  The leading optional group is tried with group 1
    bound, then with group 1 skipped, then skipped altogether. *)
Definition exec (s : string) : option Match :=
  let with_protocol :=
    match protocol_group s with
    | Some (proto, r) =>
        match slashes r with
        | Some r' => groups_from (Some proto) r'
        | None => None
        end
    | None => None
    end in
  match with_protocol with
  | Some m => Some m
  | None =>
      let with_slashes :=
        match slashes s with
        | Some r => groups_from None r
        | None => None
        end in
      match with_slashes with
      | Some m => Some m
      | None => groups_from None s
      end
  end.

End UrlPattern.


(** ** Node's [Url] objects

    The fields of the object returned by [url.parse] that the program
    reads.  [null] is [None]. *)

Record Url := {
  protocol : option string;
  host : option string;
  port : option string;
  hostname : option string;
  path : string;
  href : string
}.

(** *** A reference parser

    [url.parse] and [url.resolve] belong to Node, not to this repository;
    the program below takes them as parameters.  [NodeUrl] is a small
    parser for plain [scheme://host[:port][/path][?query]] strings, which
    follows the steps of Node's legacy parser on such strings (protocol
    pattern, double slash, host up to the first separator, port split,
    lower-cased host name, default path [/]).  It is used to run the
    program on concrete requests. *)

Module NodeUrl.

(** One character of [protocolPattern], [/^[a-z0-9.+-]+:/i]. *)
Definition is_protocol_char (c : ascii) : bool :=
  let n := nat_of_ascii c in
  (Nat.leb 97 n && Nat.leb n 122) || (Nat.leb 65 n && Nat.leb n 90) ||
  is_digit c || Ascii.eqb c "."%char || Ascii.eqb c "+"%char || Ascii.eqb c "-"%char.

Fixpoint protocol_run (s : string) : option (string * string) :=
  match s with
  | "" => None
  | String c t =>
      if Ascii.eqb c ":"%char then Some ("", t)
      else if is_protocol_char c then
        match protocol_run t with
        | Some (p, r) => Some (String c p, r)
        | None => None
        end
      else None
  end.

Definition split_protocol (s : string) : option string * string :=
  match protocol_run s with
  | Some ("", _) | None => (None, s)
  | Some (p, r) => (Some (toLowerCase p ++ ":"), r)
  end.

(** The host ends at the first [/], [?] or [#]. *)
Definition is_host_end (c : ascii) : bool :=
  Ascii.eqb c "/"%char || Ascii.eqb c "?"%char || Ascii.eqb c "#"%char.

Fixpoint split_host (s : string) : string * string :=
  match s with
  | "" => ("", "")
  | String c t =>
      if is_host_end c then ("", s)
      else let (h, r) := split_host t in (String c h, r)
  end.

Fixpoint all_digits (s : string) : bool :=
  match s with
  | "" => true
  | String c t => is_digit c && all_digits t
  end.

(** [parseHost]: [portPattern] is [/:[0-9]*$/]; a bare [:] is dropped. *)
Fixpoint split_port (h : string) : string * option string :=
  match h with
  | "" => ("", None)
  | String c t =>
      if Ascii.eqb c ":"%char && all_digits t then
        ("", if t =? "" then None else Some t)
      else let (a, p) := split_port t in (String c a, p)
  end.

Fixpoint before_hash (s : string) : string :=
  match s with
  | "" => ""
  | String c t => if Ascii.eqb c "#"%char then "" else String c (before_hash t)
  end.

Definition parse (s : string) : Url :=
  let (proto, rest) := split_protocol s in
  match UrlPattern.slashes rest with
  | Some rest' =>
      let (h, tail) := split_host rest' in
      let (name, prt) := split_port h in
      let name := toLowerCase name in
      let hst := match prt with
                 | Some p => name ++ ":" ++ p
                 | None => name
                 end in
      let tail := before_hash tail in
      let pth := if name =? "" then tail
                 else match tail with
                      | "" => "/"
                      | String c _ => if Ascii.eqb c "?"%char then "/" ++ tail else tail
                      end in
      {| protocol := proto;
         host := Some hst;
         port := prt;
         hostname := Some name;
         path := pth;
         href := js_str proto ++ "//" ++ hst ++ pth |}
  | None =>
      {| protocol := proto;
         host := None;
         port := None;
         hostname := None;
         path := before_hash rest;
         href := match proto with
                 | Some p => p ++ before_hash rest
                 | None => before_hash rest
                 end |}
  end.

(** [url.resolve] for absolute and root-relative references. *)
Definition resolve (base relative : string) : string :=
  match fst (split_protocol relative) with
  | Some _ => href (parse relative)
  | None =>
      let b := parse base in
      js_str (protocol b) ++ "//" ++ js_str (host b) ++
      (if startsWith "/" relative then relative else "/" ++ relative)
  end.

End NodeUrl.

(** ** Requests, responses and configuration *)

(** [req.corsAnywhereRequestState].  The handler creates it without
    [location], [proxyBaseUrl] and [redirectCount_]; they are [undefined]
    until assigned. *)
Record RequestState := {
  getProxyForUrl : string -> option string;
  maxRedirects : nat;
  corsMaxAge : nat;
  location : option Url;
  proxyBaseUrl : option string;
  redirectCount_ : option nat
}.

(** The incoming request [req]. *)
Module Req.
Record t := {
  method : string;
  url : string;
  headers : Headers;
  encrypted : bool;                      (* req.connection.encrypted *)
  corsAnywhereRequestState : RequestState
}.

Definition with_headers (h : Headers) (r : t) : t :=
  {| method := method r; url := url r; headers := h;
     encrypted := encrypted r;
     corsAnywhereRequestState := corsAnywhereRequestState r |}.

Definition with_method (m : string) (r : t) : t :=
  {| method := m; url := url r; headers := headers r;
     encrypted := encrypted r;
     corsAnywhereRequestState := corsAnywhereRequestState r |}.

Definition with_url (u : string) (r : t) : t :=
  {| method := method r; url := u; headers := headers r;
     encrypted := encrypted r;
     corsAnywhereRequestState := corsAnywhereRequestState r |}.

Definition with_state (s : RequestState) (r : t) : t :=
  {| method := method r; url := url r; headers := headers r;
     encrypted := encrypted r;
     corsAnywhereRequestState := s |}.
End Req.

(** The upstream response [proxyRes]. *)
Module ProxyRes.
Record t := {
  statusCode : nat;
  headers : Headers
}.
End ProxyRes.

(** What [res.writeHead(status, text, headers); res.end(body)] sends. *)
Module Response.
Record t := {
  status : nat;
  statusText : string;
  headers : Headers;
  body : string
}.
End Response.

(** The [corsAnywhere] object of [getHandler], after the caller's options
    have been merged over the defaults. *)
Module Options.
Inductive RequireHeader :=
| RhNull
| RhString (name : string)
| RhArray (names : list string).

Record t := {
  handleInitialRequest : option (Req.t -> option Url -> bool);
  getProxyForUrl : string -> option string;
  maxRedirects : nat;
  originBlacklist : list string;
  originWhitelist : list string;
  checkRateLimit : option (string -> option string);
  redirectSameOrigin : bool;
  requireHeader : RequireHeader;
  removeHeaders : list string;
  setHeaders : Headers;
  corsMaxAge : nat;
  helpFile : string
}.
End Options.

Definition set_location (l : Url) (s : RequestState) : RequestState :=
  {| getProxyForUrl := getProxyForUrl s; maxRedirects := maxRedirects s;
     corsMaxAge := corsMaxAge s; location := Some l;
     proxyBaseUrl := proxyBaseUrl s; redirectCount_ := redirectCount_ s |}.

Definition set_proxyBaseUrl (b : string) (s : RequestState) : RequestState :=
  {| getProxyForUrl := getProxyForUrl s; maxRedirects := maxRedirects s;
     corsMaxAge := corsMaxAge s; location := location s;
     proxyBaseUrl := Some b; redirectCount_ := redirectCount_ s |}.

Definition set_redirectCount_ (n : nat) (s : RequestState) : RequestState :=
  {| getProxyForUrl := getProxyForUrl s; maxRedirects := maxRedirects s;
     corsMaxAge := corsMaxAge s; location := location s;
     proxyBaseUrl := proxyBaseUrl s; redirectCount_ := Some n |}.

(** The double quote and the line feed, for message bodies. *)
Definition dq : string := String (ascii_of_nat 34) "".
Definition lf : string := String (ascii_of_nat 10) "".

(** ** [withCORS] *)

Definition withCORS (headers : Headers) (request : Req.t) : Headers * Req.t :=
  let headers := Obj.set "Access-Control-Allow-Origin" "*" headers in
  let corsMaxAge := corsMaxAge (Req.corsAnywhereRequestState request) in
  let headers :=
    if (Req.method request =? "OPTIONS") && negb (Nat.eqb corsMaxAge 0)
    then Obj.set "Access-Control-Max-Age" (toString corsMaxAge) headers
    else headers in
  let '(headers, request) :=
    let v := Obj.get "Access-Control-Request-Method" (Req.headers request) in
    if truthy v
    then (Obj.set "Access-Control-Allow-Methods" (js_str v) headers,
          Req.with_headers
            (Obj.delete "Access-Control-Request-Method" (Req.headers request))
            request)
    else (headers, request) in
  let '(headers, request) :=
    let v := Obj.get "Access-Control-Request-Headers" (Req.headers request) in
    if truthy v
    then (Obj.set "Access-Control-Allow-Headers" (js_str v) headers,
          Req.with_headers
            (Obj.delete "Access-Control-Request-Headers" (Req.headers request))
            request)
    else (headers, request) in
  let headers :=
    Obj.set "Access-Control-Expose-Headers" (join_comma (Obj.keys headers)) headers in
  (headers, request).

(** ** [showUsage]

    [help_text] is the module-level cache and [readFile] the file system.
    The result is the response that is eventually written, if any: when
    the file is read as the empty string the cache entry stays falsy and
    the function reads the file again, without end. *)
Definition showUsage (help_text : Headers) (readFile : string -> option string)
    (help_file : string) (headers : Headers) : option Response.t :=
  let isHtml := endsWith ".html" help_file in
  let headers :=
    Obj.set "content-type" (if isHtml then "text/html" else "text/plain") headers in
  let cached := Obj.get help_file help_text in
  if truthy cached then
    Some {| Response.status := 200; Response.statusText := "";
            Response.headers := headers; Response.body := js_str cached |}
  else
    match readFile help_file with
    | None =>
        Some {| Response.status := 500; Response.statusText := "";
                Response.headers := headers; Response.body := "" |}
    | Some data =>
        if truthy (Some data) then
          Some {| Response.status := 200; Response.statusText := "";
                  Response.headers := headers; Response.body := data |}
        else None
    end.

(** ** The engine-error handler of [createServer]

    [staged] are the headers set on [res] so far; they are removed one by
    one before the 404 is written.  No response is written when the
    headers have already been sent. *)
Definition onProxyError (headersSent : bool) (staged : Headers) (err : string)
    : option Response.t :=
  if headersSent then None
  else
    let headerNames := Obj.keys staged in
    let staged := fold_left (fun s name => Obj.delete name s) headerNames staged in
    Some {| Response.status := 404; Response.statusText := "";
            Response.headers :=
              fold_left (fun s kv => Obj.set (fst kv) (snd kv) s)
                        [("Access-Control-Allow-Origin", "*")] staged;
            Response.body := "Not found because of proxy error: " ++ err |}.

(** Why [parseURL] returned [null]: one constructor per [return null]. *)
Inductive Malformed :=
| NoMatch            (* the pattern does not match *)
| SchemeWithoutHost  (* group 1 unbound although the input starts with http(s): *)
| EmptyHostname.     (* url.parse found no host name *)

(** The result of [onProxyResponse]: [Relay] is [return true] (the engine
    pipes [proxyRes] to [res]), [Reissue] is the call of [proxyRequest]
    followed by [return false]. *)
Inductive Verdict :=
| Relay (res : Headers) (proxyRes : ProxyRes.t) (req : Req.t)
| Reissue (res : Headers) (req : Req.t).

(** What the engine is asked to do by [proxy.web(req, res, proxyOptions)]. *)
Record EngineCall := {
  call_req : Req.t;
  call_target : string;
  call_toProxy : bool;
  call_host : option string
}.

(** The result of one run of the request handler. *)
Inductive Handled :=
| Responded (r : Response.t)   (* res.writeHead ...; res.end ... *)
| Claimed                      (* handleInitialRequest returned a truthy value *)
| Silent                       (* showUsage never gets to write *)
| Proxying (call : EngineCall) (* proxyRequest(req, res, proxy) *).

(** What the client finally receives for a proxied request: the headers
    staged on [res] and the upstream response the engine pipes into it. *)
Record Relayed := {
  staged : Headers;
  upstream : ProxyRes.t
}.

(** The engine copies every upstream header onto [res] with
    [res.setHeader]. *)
Definition client_headers (r : Relayed) : Headers :=
  let h := ProxyRes.headers (upstream r) in
  fold_left (fun s key => Obj.set key (js_str (Obj.get key h)) s)
            (Obj.keys h) (staged r).

(** [/^\/https?:\/[^/]/i.test(s)] *)
Definition missing_slash (s : string) : bool :=
  let after (p : string) :=
    if startsWith_i p s then
      match String.get (String.length p) s with
      | Some c => negb (Ascii.eqb c "/"%char)
      | None => false
      end
    else false in
  after "/https:/" || after "/http:/".

(** [/^\/https?:/.test(s)] (no [i] flag). *)
Definition explicit_scheme (s : string) : bool :=
  startsWith "/https:" s || startsWith "/http:" s.

(** [\s] on ASCII input. *)
Definition is_space (c : ascii) : bool :=
  let n := nat_of_ascii c in Nat.eqb n 32 || (Nat.leb 9 n && Nat.leb n 13).

Fixpoint skip_spaces (s : string) : string :=
  match s with
  | "" => ""
  | String c t => if is_space c then skip_spaces t else s
  end.

(** [/^\s*https/.test(v)]; an undefined [v] is tested as the text
    [undefined]. *)
Definition forwarded_https (v : option string) : bool :=
  startsWith "https" (skip_spaces (js_str v)).

(** [l.indexOf(x) >= 0] *)
Definition includes (x : string) (l : list string) : bool :=
  existsb (String.eqb x) l.

(** [location.port > 65535]: [null] converts to 0, a digit string to its
    value, anything else to NaN. *)
Definition port_too_large (p : option string) : bool :=
  match p with
  | None => false
  | Some s =>
      match digits_value 0%N s with
      | Some n => N.ltb 65535 n
      | None => false
      end
  end.

(** The normalisation of [corsAnywhere.requireHeader] done once by
    [getHandler]: lower-cased names, or [null]. *)
Definition normalize_requireHeader (r : Options.RequireHeader) : option (list string) :=
  match r with
  | Options.RhNull => None
  | Options.RhString name => if name =? "" then None else Some [toLowerCase name]
  | Options.RhArray [] => None
  | Options.RhArray names => Some (map toLowerCase names)
  end.

Definition hasRequiredHeaders (requireHeader : option (list string)) (headers : Headers) : bool :=
  match requireHeader with
  | None => true
  | Some names => existsb (fun headerName => Obj.has headerName headers) names
  end.

(** ** Sample data

    Concrete requests, options and upstream responses on which the
    program is run below. *)

Module Sample.

Definition tld (hostname : string) : bool :=
  endsWith ".com" hostname || endsWith ".example" hostname.

Definition no_ip (hostname : string) : bool := false.

Definition readFile (file : string) : option string := Some "usage".

Definition options (blacklist whitelist : list string) (sameOrigin : bool)
    : Options.t :=
  {| Options.handleInitialRequest := None;
     Options.getProxyForUrl := fun _ => None;
     Options.maxRedirects := 5;
     Options.originBlacklist := blacklist;
     Options.originWhitelist := whitelist;
     Options.checkRateLimit := None;
     Options.redirectSameOrigin := sameOrigin;
     Options.requireHeader := Options.RhNull;
     Options.removeHeaders := [];
     Options.setHeaders := [];
     Options.corsMaxAge := 0;
     Options.helpFile := "help.txt" |}.

(** The state of a proxied request for [http://a.example/] that has
    not been redirected yet. *)
Definition state (limit : nat) : RequestState :=
  {| getProxyForUrl := fun _ => None;
     maxRedirects := limit;
     corsMaxAge := 0;
     location := Some (NodeUrl.parse "http://a.example/");
     proxyBaseUrl := Some "http://proxy.example";
     redirectCount_ := None |}.

Definition request (method url : string) (headers : Headers) : Req.t :=
  {| Req.method := method; Req.url := url; Req.headers := headers;
     Req.encrypted := false; Req.corsAnywhereRequestState := state 5 |}.

Definition in_flight (limit : nat) : Req.t :=
  Req.with_state (state limit)
    (request "GET" "/" [("host", "proxy.example")]).

Definition redirect (status : nat) (target : string) : ProxyRes.t :=
  {| ProxyRes.statusCode := status;
     ProxyRes.headers := [("location", target); ("set-cookie", "id=1")] |}.

Definition ok : ProxyRes.t :=
  {| ProxyRes.statusCode := 200;
     ProxyRes.headers := [("content-type", "text/plain"); ("set-cookie", "id=1");
                          ("set-cookie2", "id=2")] |}.

Definition three_hops : list ProxyRes.t :=
  [redirect 302 "http://b.example/"; redirect 302 "http://c.example/";
   redirect 302 "http://d.example/"].

End Sample.

Section Program.

(** Node's [url.parse] and [url.resolve]. *)
Variable url_parse : string -> Url.
Variable url_resolve : string -> string -> string.

(** [regexp_tld.test] (from [./regexp-top-level-domain]), [net.isIPv4]
    and [net.isIPv6]. *)
Variable regexp_tld_test : string -> bool.
Variable net_isIPv4 : string -> bool.
Variable net_isIPv6 : string -> bool.

(** The help-text cache and the file system seen by [showUsage]. *)
Variable help_text : Headers.
Variable readFile : string -> option string.

Definition isValidHostName (hostname : string) : bool :=
  regexp_tld_test hostname || net_isIPv4 hostname || net_isIPv6 hostname.

(** *** [parseURL] *)

(** The text handed to [url.parse], or the guard that stopped before. *)
Definition normalize (req_url : string) : Malformed + string :=
  match UrlPattern.exec req_url with
  | None => inl NoMatch
  | Some m =>
      if negb (truthy (UrlPattern.m_protocol m)) then
        if startsWith_i "https:" req_url || startsWith_i "http:" req_url then
          inl SchemeWithoutHost
        else
          let req_url :=
            if negb (startsWith "//" req_url) then "//" ++ req_url else req_url in
          inr ((if strict_eq (UrlPattern.m_port m) "443" then "https:" else "http:")
               ++ req_url)
      else inr req_url
  end.

Definition parseURL_steps (req_url : string) : Malformed + Url :=
  match normalize req_url with
  | inl why => inl why
  | inr req_url =>
      let parsed := url_parse req_url in
      if negb (truthy (hostname parsed)) then inl EmptyHostname
      else inr parsed
  end.

Definition parseURL (req_url : string) : option Url :=
  match parseURL_steps req_url with
  | inl _ => None
  | inr parsed => Some parsed
  end.

(** *** [proxyRequest]

    The request as handed to the engine; [None] is the TypeError of
    reading [location.path] from an undefined [location]. *)
Definition proxyRequest (req : Req.t) : option EngineCall :=
  match location (Req.corsAnywhereRequestState req) with
  | None => None
  | Some location =>
      let req := Req.with_url (path location) req in
      let proxyThroughUrl :=
        getProxyForUrl (Req.corsAnywhereRequestState req) (href location) in
      if truthy proxyThroughUrl then
        Some {| call_req := Req.with_url (href location) req;
                call_target := js_str proxyThroughUrl;
                call_toProxy := true;
                call_host := host location |}
      else
        Some {| call_req := req; call_target := href location;
                call_toProxy := false; call_host := host location |}
  end.

(** *** [onProxyResponse] *)

Definition is_redirect (statusCode : nat) : bool :=
  Nat.eqb statusCode 301 || Nat.eqb statusCode 302 || Nat.eqb statusCode 303 ||
  Nat.eqb statusCode 307 || Nat.eqb statusCode 308.

Definition is_followed (statusCode : nat) : bool :=
  Nat.eqb statusCode 301 || Nat.eqb statusCode 302 || Nat.eqb statusCode 303.

(** Lines 233-239: strip cookies, set [x-final-url], add the CORS
    headers, [return true]. *)
Definition relay (res : Headers) (proxyRes : ProxyRes.t) (req : Req.t)
    (final_url : string) : Verdict :=
  let h := Obj.delete "set-cookie" (ProxyRes.headers proxyRes) in
  let h := Obj.delete "set-cookie2" h in
  let h := Obj.set "x-final-url" final_url h in
  let '(h, req) := withCORS h req in
  Relay res {| ProxyRes.statusCode := ProxyRes.statusCode proxyRes;
               ProxyRes.headers := h |} req.

Definition set_location_header (v : string) (proxyRes : ProxyRes.t) : ProxyRes.t :=
  {| ProxyRes.statusCode := ProxyRes.statusCode proxyRes;
     ProxyRes.headers := Obj.set "location" v (ProxyRes.headers proxyRes) |}.

(** [None] is the TypeError of reading [location.href] from an
    undefined [location], and of a failing [proxyRequest]. *)
Definition onProxyResponse (proxyRes : ProxyRes.t) (req : Req.t) (res : Headers)
    : option Verdict :=
  let requestState := Req.corsAnywhereRequestState req in
  match location requestState with
  | None => None
  | Some current =>
      let statusCode := ProxyRes.statusCode proxyRes in
      let res :=
        match redirectCount_ requestState with
        | None | Some 0 => Obj.set "x-request-url" (href current) res
        | Some _ => res
        end in
      if is_redirect statusCode then
        let locationHeader := Obj.get "location" (ProxyRes.headers proxyRes) in
        if truthy locationHeader then
          let locationHeader := url_resolve (href current) (js_str locationHeader) in
          match parseURL locationHeader with
          | Some parsedLocation =>
              let rewritten :=
                set_location_header
                  (js_str (proxyBaseUrl requestState) ++ "/" ++ locationHeader)
                  proxyRes in
              if is_followed statusCode then
                let count :=
                  match redirectCount_ requestState with
                  | None => 1
                  | Some n => n + 1
                  end in
                let requestState := set_redirectCount_ count requestState in
                if Nat.leb count (maxRedirects requestState) then
                  let res :=
                    Obj.set ("X-CORS-Redirect-" ++ toString count)
                            (toString statusCode ++ " " ++ locationHeader) res in
                  let req := Req.with_method "GET" req in
                  let req :=
                    Req.with_headers
                      (Obj.delete "content-type"
                         (Obj.set "content-length" "0" (Req.headers req))) req in
                  let requestState := set_location parsedLocation requestState in
                  let req := Req.with_state requestState req in
                  match proxyRequest req with
                  | Some call => Some (Reissue res (call_req call))
                  | None => None
                  end
                else
                  Some (relay res rewritten (Req.with_state requestState req)
                              (href current))
              else Some (relay res rewritten req (href current))
          | None => Some (relay res proxyRes req (href current))
          end
        else Some (relay res proxyRes req (href current))
      else Some (relay res proxyRes req (href current))
  end.

(** *** One client-facing exchange

    [script] lists the upstream responses in the order the engine
    receives them, one per outbound request.  The result is what the
    client receives; [None] when the script ends before a response is
    relayed. *)
Fixpoint exchange (req : Req.t) (res : Headers) (script : list ProxyRes.t)
    : option Relayed :=
  match script with
  | [] => None
  | proxyRes :: later =>
      match onProxyResponse proxyRes req res with
      | Some (Relay res proxyRes _) =>
          Some {| staged := res; upstream := proxyRes |}
      | Some (Reissue res req) => exchange req res later
      | None => None
      end
  end.

(** *** The request handler returned by [getHandler] *)

Definition reply (status : nat) (statusText : string) (headers : Headers)
    (body : string) : Handled :=
  Responded {| Response.status := status; Response.statusText := statusText;
               Response.headers := headers; Response.body := body |}.

(** [req.headers.origin || ''] *)
Definition origin_of (req : Req.t) : string :=
  match Obj.get "origin" (Req.headers req) with
  | Some o => o
  | None => ""
  end.

(** The fresh [req.corsAnywhereRequestState]. *)
Definition initial_state (corsAnywhere : Options.t) : RequestState :=
  {| getProxyForUrl := Options.getProxyForUrl corsAnywhere;
     maxRedirects := Options.maxRedirects corsAnywhere;
     corsMaxAge := Options.corsMaxAge corsAnywhere;
     location := None;
     proxyBaseUrl := None;
     redirectCount_ := None |}.

(** [origin && href[origin.length] === '/' && href.lastIndexOf(origin, 0) === 0] *)
Definition same_origin (origin href : string) : bool :=
  negb (origin =? "") &&
  match String.get (String.length origin) href with
  | Some c => Ascii.eqb c "/"%char
  | None => false
  end &&
  startsWith origin href.

Definition handler (corsAnywhere : Options.t) (req : Req.t) : Handled :=
  let requireHeader := normalize_requireHeader (Options.requireHeader corsAnywhere) in
  let req := Req.with_state (initial_state corsAnywhere) req in
  let '(cors_headers, req) := withCORS [] req in
  if Req.method req =? "OPTIONS" then
    reply 200 "" cors_headers ""
  else
    let location := parseURL (slice1 (Req.url req)) in
    if match Options.handleInitialRequest corsAnywhere with
       | Some hook => hook req location
       | None => false
       end
    then Claimed
    else
      match location with
      | None =>
          if missing_slash (Req.url req) then
            reply 400 "Missing slash" cors_headers
                  "The URL is invalid: two slashes are needed after the http(s):."
          else
            match showUsage help_text readFile (Options.helpFile corsAnywhere)
                            cors_headers with
            | Some r => Responded r
            | None => Silent
            end
      | Some location =>
          if strict_eq (host location) "iscorsneeded" then
            reply 200 "" [("Content-Type", "text/plain")] "no"
          else if port_too_large (port location) then
            reply 400 "Invalid port" cors_headers
                  ("Port number too large: " ++ js_str (port location))
          else if negb (explicit_scheme (Req.url req)) &&
                  negb (isValidHostName (js_str (hostname location))) then
            reply 404 "Invalid host" cors_headers
                  ("Invalid host: " ++ js_str (hostname location))
          else if negb (hasRequiredHeaders requireHeader (Req.headers req)) then
            reply 400 "Header required" cors_headers
                  ("Missing required request header. Must specify one of: " ++
                   match requireHeader with
                   | Some names => join_comma names
                   | None => "null"
                   end)
          else
            let origin := origin_of req in
            if includes origin (Options.originBlacklist corsAnywhere) then
              reply 403 "Forbidden" cors_headers
                    ("The origin " ++ dq ++ origin ++ dq ++
                     " was blacklisted by the operator of this proxy.")
            else if negb (Nat.eqb (List.length (Options.originWhitelist corsAnywhere)) 0) &&
                    negb (includes origin (Options.originWhitelist corsAnywhere)) then
              reply 403 "Forbidden" cors_headers
                    ("The origin " ++ dq ++ origin ++ dq ++
                     " was not whitelisted by the operator of this proxy.")
            else
              let rateLimitMessage :=
                match Options.checkRateLimit corsAnywhere with
                | Some check => check origin
                | None => None
                end in
              if truthy rateLimitMessage then
                reply 429 "Too Many Requests" cors_headers
                      ("The origin " ++ dq ++ origin ++ dq ++
                       " has sent too many requests." ++ lf ++ js_str rateLimitMessage)
              else if Options.redirectSameOrigin corsAnywhere &&
                      same_origin origin (href location) then
                let cors_headers := Obj.set "consty" "origin" cors_headers in
                let cors_headers := Obj.set "cache-control" "private" cors_headers in
                let cors_headers := Obj.set "location" (href location) cors_headers in
                reply 301 "Please use a direct request" cors_headers ""
              else
                let isRequestedOverHttps :=
                  Req.encrypted req ||
                  forwarded_https (Obj.get "x-forwarded-proto" (Req.headers req)) in
                let proxyBaseUrl :=
                  (if isRequestedOverHttps then "https://" else "http://") ++
                  js_str (Obj.get "host" (Req.headers req)) in
                let req :=
                  Req.with_headers
                    (fold_left (fun h header => Obj.delete header h)
                               (Options.removeHeaders corsAnywhere) (Req.headers req))
                    req in
                let req :=
                  Req.with_headers
                    (fold_left (fun h kv => Obj.set (fst kv) (snd kv) h)
                               (Options.setHeaders corsAnywhere) (Req.headers req))
                    req in
                let req :=
                  Req.with_state
                    (set_proxyBaseUrl proxyBaseUrl
                       (set_location location (Req.corsAnywhereRequestState req)))
                    req in
                match proxyRequest req with
                | Some call => Proxying call
                | None => Silent   (* not reached: location has just been set *)
                end
      end.

(** A proxied request from arrival to the response the client receives. *)
Definition serve (corsAnywhere : Options.t) (req : Req.t)
    (script : list ProxyRes.t) : option Relayed :=
  match handler corsAnywhere req with
  | Proxying call => exchange (call_req call) [] script
  | _ => None
  end.

(** *** Vocabulary of the properties *)

(** The header sets of the responses the program sends: written by the
    request handler, relayed from upstream after [onProxyResponse], or
    written by the engine-error handler. *)
Inductive sent (corsAnywhere : Options.t) : Headers -> Prop :=
| sent_by_handler req r :
    handler corsAnywhere req = Responded r ->
    sent corsAnywhere (Response.headers r)
| sent_by_relay proxyRes req res res' proxyRes' req' :
    onProxyResponse proxyRes req res = Some (Relay res' proxyRes' req') ->
    sent corsAnywhere (client_headers {| staged := res'; upstream := proxyRes' |})
| sent_by_error headersSent staged err r :
    onProxyError headersSent staged err = Some r ->
    sent corsAnywhere (Response.headers r).

(** The request header that [withCORS] echoes, with the response header
    that receives it. *)
Definition echo_pairs : list (string * string) :=
  [("Access-Control-Request-Method", "Access-Control-Allow-Methods");
   ("Access-Control-Request-Headers", "Access-Control-Allow-Headers")].

(** A header object as Node's HTTP parser delivers it in [req.headers]
    and [proxyRes.headers]: every name in lower case. *)
Definition lower_case_names (h : Headers) : bool :=
  forallb (fun key => key =? toLowerCase key) (Obj.keys h).

(** The request object and the CORS headers as the checks of the handler
    see them, after the first call of [withCORS]. *)
Definition checked_request (corsAnywhere : Options.t) (req : Req.t) : Req.t :=
  snd (withCORS [] (Req.with_state (initial_state corsAnywhere) req)).

Definition cors_headers_of (corsAnywhere : Options.t) (req : Req.t) : Headers :=
  fst (withCORS [] (Req.with_state (initial_state corsAnywhere) req)).

(** The request passes every check that precedes the origin checks:
    it is no pre-flight, the hook does not claim it, its target parses
    to [location], which is not the self-test host, has no oversized
    port and a valid host (or an explicit scheme), and a required
    header is present. *)
Definition reaches_origin_checks (corsAnywhere : Options.t) (req : Req.t)
    (location : Url) : Prop :=
  (Req.method req =? "OPTIONS") = false /\
  parseURL (slice1 (Req.url req)) = Some location /\
  match Options.handleInitialRequest corsAnywhere with
  | Some hook => hook (checked_request corsAnywhere req) (Some location)
  | None => false
  end = false /\
  strict_eq (host location) "iscorsneeded" = false /\
  port_too_large (port location) = false /\
  (explicit_scheme (Req.url req) || isValidHostName (js_str (hostname location))) = true /\
  hasRequiredHeaders (normalize_requireHeader (Options.requireHeader corsAnywhere))
                     (Req.headers (checked_request corsAnywhere req)) = true.

(** The two 403 replies of the origin checks. *)
Definition blacklisted_reply (cors_headers : Headers) (origin : string) : Handled :=
  reply 403 "Forbidden" cors_headers
        ("The origin " ++ dq ++ origin ++ dq ++
         " was blacklisted by the operator of this proxy.").

Definition not_whitelisted_reply (cors_headers : Headers) (origin : string) : Handled :=
  reply 403 "Forbidden" cors_headers
        ("The origin " ++ dq ++ origin ++ dq ++
         " was not whitelisted by the operator of this proxy.").

(** An upstream that answers with 302 once per element of [hops], each
    time with a [Location] that resolves to a URL [parseURL] accepts:
    the list of the resolved locations, starting from the target
    [current]. *)
Fixpoint redirect_targets (current : string) (hops : list ProxyRes.t)
    : option (list string) :=
  match hops with
  | [] => Some []
  | hop :: later =>
      let locationHeader := Obj.get "location" (ProxyRes.headers hop) in
      if Nat.eqb (ProxyRes.statusCode hop) 302 && truthy locationHeader then
        let absolute := url_resolve current (js_str locationHeader) in
        match parseURL absolute with
        | Some parsedLocation =>
            match redirect_targets (href parsedLocation) later with
            | Some targets => Some (absolute :: targets)
            | None => None
            end
        | None => None
        end
      else None
  end.

(** The name of the debug header of the [n]th followed redirect. *)
Definition redirect_header (n : nat) : string := "X-CORS-Redirect-" ++ toString n.

(** Whether an upstream response has a header of its own that is named
    like a debug header, in any letter case. *)
Definition carries_debug_header (proxyRes : ProxyRes.t) : bool :=
  existsb (fun key => startsWith "x-cors-redirect-" (toLowerCase key))
          (Obj.keys (ProxyRes.headers proxyRes)).

(** The response headers [withCORS] may write. *)
Definition cors_names : list string :=
  ["Access-Control-Allow-Origin"; "Access-Control-Max-Age";
   "Access-Control-Allow-Methods"; "Access-Control-Allow-Headers";
   "Access-Control-Expose-Headers"].

(** The number of redirects followed so far ([undefined] counts as 0). *)
Definition followed_so_far (requestState : RequestState) : nat :=
  match redirectCount_ requestState with
  | None => 0
  | Some n => n
  end.

(** The upstream headers the relay path may write or remove. *)
Definition relay_names : list string :=
  ["location"; "set-cookie"; "set-cookie2"; "x-final-url"] ++ cors_names.

(** ** Properties *)

#[local] Set Default Proof Using "Type".

(** *** Header objects *)

Lemma get_set (k k' v : string) (o : Headers) :
  Obj.get k (Obj.set k' v o) = if k =? k' then Some v else Obj.get k o.
Proof.
  induction o as [|[k0 v0] o IH]; simpl.
  - destruct (k =? k'); reflexivity.
  - destruct (k' =? k0) eqn:E0; simpl.
    + apply String.eqb_eq in E0; subst k0.
      destruct (k =? k'); reflexivity.
    + destruct (k =? k0) eqn:E1.
      * apply String.eqb_eq in E1; subst k0.
        rewrite String.eqb_sym, E0. reflexivity.
      * exact IH.
Qed.

Lemma get_delete (k k' : string) (o : Headers) :
  Obj.get k (Obj.delete k' o) = if k =? k' then None else Obj.get k o.
Proof.
  unfold Obj.delete.
  induction o as [|[k0 v0] o IH]; simpl.
  - destruct (k =? k'); reflexivity.
  - destruct (k' =? k0) eqn:E0; simpl.
    + apply String.eqb_eq in E0; subst k0.
      rewrite IH. destruct (k =? k'); reflexivity.
    + destruct (k =? k0) eqn:E1.
      * apply String.eqb_eq in E1; subst k0.
        rewrite String.eqb_sym, E0. reflexivity.
      * exact IH.
Qed.

Lemma has_get (k : string) (o : Headers) :
  Obj.has k o = match Obj.get k o with Some _ => true | None => false end.
Proof.
  unfold Obj.has, Obj.keys.
  induction o as [|[k0 v0] o IH]; simpl; [reflexivity|].
  destruct (k =? k0); simpl; [reflexivity | exact IH].
Qed.

Lemma keys_set (k v : string) (o : Headers) :
  Obj.keys (Obj.set k v o) =
  if Obj.has k o then Obj.keys o else (Obj.keys o ++ [k])%list.
Proof.
  unfold Obj.has, Obj.keys.
  induction o as [|[k0 v0] o IH]; simpl; [reflexivity|].
  destruct (k =? k0); simpl; [reflexivity|].
  rewrite IH. destruct (existsb (String.eqb k) (map fst o)); reflexivity.
Qed.

Lemma has_set (k k' v : string) (o : Headers) :
  Obj.has k (Obj.set k' v o) = (k =? k') || Obj.has k o.
Proof.
  rewrite !has_get, get_set. destruct (k =? k'); reflexivity.
Qed.

Lemma has_In (k : string) (o : Headers) :
  Obj.has k o = false -> ~ In k (Obj.keys o).
Proof.
  unfold Obj.has. intros H Hin.
  assert (existsb (String.eqb k) (Obj.keys o) = true) as E.
  { apply existsb_exists. exists k. split; [exact Hin | apply String.eqb_refl]. }
  congruence.
Qed.

Lemma filter_absent (k : string) (l : list string) :
  ~ In k l -> filter (fun x => negb (x =? k)) l = l.
Proof.
  induction l as [|x l IH]; simpl; intros H; [reflexivity|].
  destruct (x =? k) eqn:E.
  - apply String.eqb_eq in E. exfalso. apply H. left. exact E.
  - simpl. f_equal. apply IH. intros Hin. apply H. right. exact Hin.
Qed.

Lemma filter_last (k : string) (l : list string) :
  ~ In k l -> filter (fun x => negb (x =? k)) (l ++ [k])%list = l.
Proof.
  intros H. rewrite filter_app, filter_absent by exact H.
  simpl. rewrite String.eqb_refl. simpl. apply app_nil_r.
Qed.

(** The engine's copy of the upstream headers onto [res]: an upstream
    header wins over a staged one of the same name. *)
Lemma get_copy (k : string) (h : Headers) (names : list string) (s : Headers) :
  Obj.get k (fold_left (fun s key => Obj.set key (js_str (Obj.get key h)) s) names s) =
  if existsb (String.eqb k) names then Some (js_str (Obj.get k h)) else Obj.get k s.
Proof.
  revert s. induction names as [|n names IH]; intros s; simpl; [reflexivity|].
  rewrite IH, get_set.
  destruct (existsb (String.eqb k) names); simpl.
  - rewrite orb_true_r. reflexivity.
  - rewrite orb_false_r. destruct (k =? n) eqn:E; [|reflexivity].
    apply String.eqb_eq in E. subst n. reflexivity.
Qed.

Lemma get_client_headers (k : string) (r : Relayed) :
  Obj.get k (client_headers r) =
  match Obj.get k (ProxyRes.headers (upstream r)) with
  | Some v => Some v
  | None => Obj.get k (staged r)
  end.
Proof.
  unfold client_headers. cbv zeta. rewrite get_copy.
  fold (Obj.has k (ProxyRes.headers (upstream r))). rewrite has_get.
  destruct (Obj.get k (ProxyRes.headers (upstream r))); reflexivity.
Qed.

(** *** [withCORS] *)

Ltac cors_cases :=
  unfold withCORS; cbv zeta;
  repeat match goal with
         | |- context [if ?c then _ else _] => destruct c eqn:?
         end;
  cbn [fst snd].

Lemma withCORS_allow_origin (headers : Headers) (request : Req.t) :
  Obj.get "Access-Control-Allow-Origin" (fst (withCORS headers request)) = Some "*".
Proof.
  cors_cases; rewrite ?get_set; reflexivity.
Qed.

Lemma withCORS_other_header (k : string) (headers : Headers) (request : Req.t) :
  existsb (String.eqb k) cors_names = false ->
  Obj.get k (fst (withCORS headers request)) = Obj.get k headers.
Proof.
  intros H. cbn [existsb cors_names] in H.
  repeat (apply orb_false_elim in H; destruct H as [? H]).
  cors_cases; rewrite ?get_set;
    repeat match goal with
           | E : (k =? _) = false |- _ => rewrite E; clear E
           end; reflexivity.
Qed.

Lemma withCORS_request (headers : Headers) (request : Req.t) :
  let request' := snd (withCORS headers request) in
  Req.method request' = Req.method request /\
  Req.url request' = Req.url request /\
  Req.encrypted request' = Req.encrypted request /\
  Req.corsAnywhereRequestState request' = Req.corsAnywhereRequestState request /\
  forall k, (k =? "Access-Control-Request-Method") = false ->
            (k =? "Access-Control-Request-Headers") = false ->
            Obj.get k (Req.headers request') = Obj.get k (Req.headers request).
Proof.
  cors_cases; repeat split; intros k H1 H2; cbn [Req.headers Req.with_headers];
    rewrite ?get_delete, ?H1, ?H2; reflexivity.
Qed.

(** What lines 76-85 attempt, on a header object that holds the value
    under the exact name the code looks up: a non-empty value is put
    into the matching response header and the request header is
    removed. *)
Lemma withCORS_echoes_exact_name
    (headers : Headers) (request : Req.t) (asked allowed v : string) :
  In (asked, allowed) echo_pairs ->
  Obj.get asked (Req.headers request) = Some v ->
  v <> "" ->
  Obj.get allowed (fst (withCORS headers request)) = Some v /\
  Obj.get asked (Req.headers (snd (withCORS headers request))) = None.
Proof.
  intros Hin Hget Hv.
  assert (truthy (Some v) = true) as Ht.
  { simpl. destruct (v =? "") eqn:E; [apply String.eqb_eq in E; contradiction | reflexivity]. }
  destruct Hin as [E | [E | []]]; inversion E; subst asked allowed; clear E.
  - unfold withCORS; cbv zeta. rewrite Hget, Ht. cbn [js_str].
    repeat match goal with
           | |- context [if ?c then _ else _] => destruct c eqn:?
           end;
      cbn [fst snd Req.headers Req.with_headers];
      rewrite ?get_set, ?get_delete; split; reflexivity.
  - unfold withCORS; cbv zeta.
    destruct (truthy (Obj.get "Access-Control-Request-Method" (Req.headers request))) eqn:Em;
      cbn [Req.headers Req.with_headers]; rewrite ?get_delete; cbn [String.eqb Ascii.eqb Bool.eqb];
      rewrite Hget, Ht; cbn [js_str];
      repeat match goal with
             | |- context [if ?c then _ else _] => destruct c eqn:?
             end;
      cbn [fst snd Req.headers Req.with_headers];
      rewrite ?get_set, ?get_delete; split; reflexivity.
Qed.

Lemma lower_case_names_get (k : string) (h : Headers) :
  lower_case_names h = true ->
  (k =? toLowerCase k) = false ->
  Obj.get k h = None.
Proof.
  intros Hlower Hk.
  destruct (Obj.get k h) as [v|] eqn:E; [|reflexivity].
  assert (Obj.has k h = true) as Hhas by (rewrite has_get, E; reflexivity).
  unfold Obj.has in Hhas. apply existsb_exists in Hhas.
  destruct Hhas as (key & Hin & Heq). apply String.eqb_eq in Heq. subst key.
  unfold lower_case_names in Hlower. rewrite forallb_forall in Hlower.
  rewrite (Hlower k Hin) in Hk. discriminate.
Qed.

(** C8 (defect of the code).  Node delivers the names of incoming
    headers in lower case, and [withCORS] looks the two request headers
    up under their mixed-case names.  So on every request whose header
    names are in lower case, whatever it carries under
    [access-control-request-method] and
    [access-control-request-headers], nothing is echoed and nothing is
    removed: the request comes back as it was and the two response
    headers are as in the incoming header set. *)
Theorem withCORS_misses_lower_case_headers (headers : Headers) (request : Req.t) :
  lower_case_names (Req.headers request) = true ->
  snd (withCORS headers request) = request /\
  forall asked allowed, In (asked, allowed) echo_pairs ->
    Obj.get allowed (fst (withCORS headers request)) = Obj.get allowed headers.
Proof.
  intros Hlower.
  assert (Obj.get "Access-Control-Request-Method" (Req.headers request) = None) as Hm
    by (apply lower_case_names_get; [exact Hlower | reflexivity]).
  assert (Obj.get "Access-Control-Request-Headers" (Req.headers request) = None) as Hh
    by (apply lower_case_names_get; [exact Hlower | reflexivity]).
  unfold withCORS; cbv zeta. rewrite Hm. cbn [truthy]. rewrite Hh. cbn [truthy fst snd].
  split; [reflexivity|].
  intros asked allowed [E | [E | []]]; inversion E; subst asked allowed; clear E;
    destruct ((Req.method request =? "OPTIONS") &&
              negb (Nat.eqb (corsMaxAge (Req.corsAnywhereRequestState request)) 0));
    rewrite !get_set; reflexivity.
Qed.

(** C7 (amended).  In the header set returned by [withCORS] the value of
    [Access-Control-Expose-Headers] is the comma-joined list of the names
    of all other headers of that set, in order; it lists itself as well
    only when the incoming set already had the header. *)
Theorem withCORS_exposes_its_headers (headers : Headers) (request : Req.t) :
  let result := fst (withCORS headers request) in
  Obj.get "Access-Control-Expose-Headers" result =
  Some (join_comma
          (if Obj.has "Access-Control-Expose-Headers" headers
           then Obj.keys result
           else filter (fun name => negb (name =? "Access-Control-Expose-Headers"))
                       (Obj.keys result))).
Proof.
  cbv zeta.
  assert (forall h : Headers,
    Obj.has "Access-Control-Expose-Headers" h =
    Obj.has "Access-Control-Expose-Headers" headers ->
    Obj.get "Access-Control-Expose-Headers"
      (Obj.set "Access-Control-Expose-Headers" (join_comma (Obj.keys h)) h) =
    Some (join_comma
      (if Obj.has "Access-Control-Expose-Headers" headers
       then Obj.keys (Obj.set "Access-Control-Expose-Headers" (join_comma (Obj.keys h)) h)
       else filter (fun name => negb (name =? "Access-Control-Expose-Headers"))
              (Obj.keys (Obj.set "Access-Control-Expose-Headers"
                           (join_comma (Obj.keys h)) h))))) as Hlast.
  { intros h Hh. rewrite get_set, keys_set, Hh. cbn [String.eqb Ascii.eqb Bool.eqb].
    destruct (Obj.has "Access-Control-Expose-Headers" headers) eqn:E; [reflexivity|].
    rewrite filter_last; [reflexivity | apply has_In; exact Hh]. }
  destruct (Obj.has "Access-Control-Expose-Headers" headers) eqn:E;
    cors_cases; apply Hlast; rewrite ?has_set;
    cbn [String.eqb Ascii.eqb Bool.eqb orb]; exact E.
Qed.

(** *** The relay path of [onProxyResponse] *)

Lemma relay_eq (res : Headers) (proxyRes : ProxyRes.t) (req : Req.t) (final_url : string) :
  let h := Obj.set "x-final-url" final_url
             (Obj.delete "set-cookie2"
                (Obj.delete "set-cookie" (ProxyRes.headers proxyRes))) in
  relay res proxyRes req final_url =
  Relay res {| ProxyRes.statusCode := ProxyRes.statusCode proxyRes;
               ProxyRes.headers := fst (withCORS h req) |}
        (snd (withCORS h req)).
Proof.
  unfold relay. cbv zeta.
  destruct (withCORS _ req) as [h' req']. reflexivity.
Qed.

(** Every relayed response went through [relay], with at most
    [x-request-url] added to the staged headers and at most [location]
    rewritten in the upstream headers. *)
Lemma onProxyResponse_relay_inv (proxyRes : ProxyRes.t) (req : Req.t) (res : Headers)
    (res' : Headers) (proxyRes' : ProxyRes.t) (req' : Req.t) :
  onProxyResponse proxyRes req res = Some (Relay res' proxyRes' req') ->
  exists res0 proxyRes0 req0 final_url,
    relay res0 proxyRes0 req0 final_url = Relay res' proxyRes' req' /\
    (res0 = res \/ exists v, res0 = Obj.set "x-request-url" v res) /\
    (proxyRes0 = proxyRes \/ exists v, proxyRes0 = set_location_header v proxyRes).
Proof.
  unfold onProxyResponse. cbv zeta.
  destruct (location (Req.corsAnywhereRequestState req)) as [current|]; [|discriminate].
  set (res1 := match redirectCount_ (Req.corsAnywhereRequestState req) with
               | Some 0 | None => Obj.set "x-request-url" (href current) res
               | Some (S _) => res
               end).
  assert (res1 = res \/ exists v, res1 = Obj.set "x-request-url" v res) as Hres.
  { subst res1. destruct (redirectCount_ _) as [[|n]|]; eauto. }
  clearbody res1.
  repeat match goal with
         | |- context [if ?c then _ else _] => destruct c eqn:?
         | |- context [match parseURL ?x with _ => _ end] => destruct (parseURL x) eqn:?
         | |- context [match proxyRequest ?x with _ => _ end] => destruct (proxyRequest x) eqn:?
         end;
    intros H; try discriminate; injection H as H; eauto 10.
Qed.

Lemma relay_allow_origin res0 proxyRes0 req0 final_url res' proxyRes' req' :
  relay res0 proxyRes0 req0 final_url = Relay res' proxyRes' req' ->
  Obj.get "Access-Control-Allow-Origin" (ProxyRes.headers proxyRes') = Some "*".
Proof.
  rewrite relay_eq. cbv zeta. intros H. injection H as _ H _. subst proxyRes'.
  apply withCORS_allow_origin.
Qed.

Lemma relay_no_cookie (k : string) res0 proxyRes0 req0 final_url res' proxyRes' req' :
  k = "set-cookie" \/ k = "set-cookie2" ->
  relay res0 proxyRes0 req0 final_url = Relay res' proxyRes' req' ->
  res' = res0 /\ Obj.get k (ProxyRes.headers proxyRes') = None.
Proof.
  rewrite relay_eq. cbv zeta. intros Hk H. injection H as H1 H2 _. subst proxyRes' res'.
  split; [reflexivity|]. cbn [ProxyRes.headers].
  destruct Hk; subst k;
    (rewrite withCORS_other_header by reflexivity);
    rewrite get_set; cbn [String.eqb Ascii.eqb Bool.eqb];
    rewrite !get_delete; reflexivity.
Qed.

(** C5.  For every upstream response that [onProxyResponse] relays, the
    relayed upstream header set has neither [set-cookie] nor
    [set-cookie2], whatever the upstream response carried; and the
    headers the client receives have them only if they had been staged
    on [res] before. *)
Theorem relayed_response_has_no_cookies
    (proxyRes : ProxyRes.t) (req : Req.t) (res : Headers)
    (res' : Headers) (proxyRes' : ProxyRes.t) (req' : Req.t) (k : string) :
  onProxyResponse proxyRes req res = Some (Relay res' proxyRes' req') ->
  k = "set-cookie" \/ k = "set-cookie2" ->
  Obj.get k (ProxyRes.headers proxyRes') = None /\
  Obj.get k (client_headers {| staged := res'; upstream := proxyRes' |}) = Obj.get k res.
Proof.
  intros H Hk.
  destruct (onProxyResponse_relay_inv _ _ _ _ _ _ H)
    as (res0 & proxyRes0 & req0 & final_url & Hrelay & Hres & _).
  destruct (relay_no_cookie k _ _ _ _ _ _ _ Hk Hrelay) as [-> Hnone].
  split; [exact Hnone|].
  rewrite get_client_headers. cbn [staged upstream]. rewrite Hnone.
  destruct Hres as [-> | [v ->]]; [reflexivity|].
  rewrite get_set. destruct Hk; subst k; reflexivity.
Qed.

(** C3.  An upstream response with status 307 or 308 and a [Location]
    header that resolves to a URL [parseURL] accepts is never followed:
    whatever the redirect count and the redirect limit, it is relayed
    with the same status and with [Location] set to
    [proxyBaseUrl + '/' + absoluteLocation]. *)
Theorem temporary_redirects_are_relayed
    (proxyRes : ProxyRes.t) (req : Req.t) (res : Headers)
    (current parsedLocation : Url) (base locationHeader : string) :
  location (Req.corsAnywhereRequestState req) = Some current ->
  proxyBaseUrl (Req.corsAnywhereRequestState req) = Some base ->
  ProxyRes.statusCode proxyRes = 307 \/ ProxyRes.statusCode proxyRes = 308 ->
  Obj.get "location" (ProxyRes.headers proxyRes) = Some locationHeader ->
  locationHeader <> "" ->
  parseURL (url_resolve (href current) locationHeader) = Some parsedLocation ->
  exists res' proxyRes' req',
    onProxyResponse proxyRes req res = Some (Relay res' proxyRes' req') /\
    ProxyRes.statusCode proxyRes' = ProxyRes.statusCode proxyRes /\
    Obj.get "location" (ProxyRes.headers proxyRes') =
      Some (base ++ "/" ++ url_resolve (href current) locationHeader) /\
    Req.corsAnywhereRequestState req' = Req.corsAnywhereRequestState req.
Proof.
  intros Hloc Hbase Hstatus Hget Hne Hparse.
  assert (truthy (Some locationHeader) = true) as Ht.
  { simpl. destruct (locationHeader =? "") eqn:E;
      [apply String.eqb_eq in E; contradiction | reflexivity]. }
  assert (is_redirect (ProxyRes.statusCode proxyRes) = true /\
          is_followed (ProxyRes.statusCode proxyRes) = false) as [Hr Hf].
  { destruct Hstatus as [-> | ->]; split; reflexivity. }
  unfold onProxyResponse. cbv zeta.
  rewrite Hloc, Hr, Hget, Ht. cbn [js_str]. rewrite Hparse, Hf, Hbase. cbn [js_str].
  rewrite relay_eq. cbv zeta.
  do 3 eexists. split; [reflexivity|].
  cbn [ProxyRes.statusCode ProxyRes.headers set_location_header].
  split; [reflexivity|]. split.
  - rewrite withCORS_other_header by reflexivity.
    rewrite get_set. cbn [String.eqb Ascii.eqb Bool.eqb].
    rewrite !get_delete. cbn [String.eqb Ascii.eqb Bool.eqb].
    rewrite get_set. cbn [String.eqb Ascii.eqb Bool.eqb]. reflexivity.
  - apply withCORS_request.
Qed.

(** *** The request handler *)

Lemma showUsage_headers (cache : Headers) (read : string -> option string)
    (help_file : string) (headers : Headers) (r : Response.t) (k : string) :
  showUsage cache read help_file headers = Some r ->
  (k =? "content-type") = false ->
  Obj.get k (Response.headers r) = Obj.get k headers.
Proof.
  unfold showUsage. cbv zeta. intros H Hk.
  repeat match type of H with
         | context [if ?c then _ else _] => destruct c eqn:?
         | context [match read ?x with _ => _ end] => destruct (read x) eqn:?
         end;
    try discriminate; injection H as <-; cbn [Response.headers];
    rewrite get_set, Hk; reflexivity.
Qed.

(** Every response of the handler is the self-test reply or carries the
    header. *)
Lemma handler_allow_origin (corsAnywhere : Options.t) (req : Req.t) (r : Response.t) :
  handler corsAnywhere req = Responded r ->
  Response.headers r = [("Content-Type", "text/plain")] \/
  Obj.get "Access-Control-Allow-Origin" (Response.headers r) = Some "*".
Proof.
  unfold handler. cbv zeta.
  pose proof (withCORS_allow_origin [] (Req.with_state (initial_state corsAnywhere) req)) as Hc.
  destruct (withCORS [] (Req.with_state (initial_state corsAnywhere) req))
    as [cors_headers req1]. cbn [fst] in Hc.
  unfold reply.
  repeat match goal with
         | |- context [if ?c then _ else _] => destruct c eqn:?
         | |- context [match parseURL ?x with _ => _ end] => destruct (parseURL x) eqn:?
         | |- context [match showUsage ?a ?b ?c ?d with _ => _ end] =>
             destruct (showUsage a b c d) eqn:?
         | |- context [match proxyRequest ?x with _ => _ end] => destruct (proxyRequest x) eqn:?
         end;
    intros H; try discriminate; injection H as <-; cbn [Response.headers];
    first
      [ right; exact Hc
      | left; reflexivity
      | right; erewrite showUsage_headers by (eassumption || reflexivity); exact Hc
      | right; rewrite !get_set; cbn [String.eqb Ascii.eqb Bool.eqb]; exact Hc ].
Qed.

Lemma onProxyError_allow_origin (headersSent : bool) (staged : Headers) (err : string)
    (r : Response.t) :
  onProxyError headersSent staged err = Some r ->
  Obj.get "Access-Control-Allow-Origin" (Response.headers r) = Some "*".
Proof.
  unfold onProxyError. destruct headersSent; [discriminate|].
  intros H. injection H as <-. cbn [Response.headers fold_left fst snd].
  rewrite get_set. reflexivity.
Qed.


(** *** The origin checks *)

Lemma includes_In (x : string) (l : list string) :
  includes x l = true <-> In x l.
Proof.
  unfold includes. rewrite existsb_exists. split.
  - intros (y & Hy & E). apply String.eqb_eq in E. subst y. exact Hy.
  - intros H. exists x. split; [exact H | apply String.eqb_refl].
Qed.

Lemma origin_of_checked (corsAnywhere : Options.t) (req : Req.t) :
  origin_of (checked_request corsAnywhere req) = origin_of req.
Proof.
  unfold origin_of, checked_request.
  destruct (withCORS_request [] (Req.with_state (initial_state corsAnywhere) req))
    as (_ & _ & _ & _ & Hh).
  rewrite Hh by reflexivity. reflexivity.
Qed.

(** What the handler does with a request that reaches the origin
    checks, by the outcome of the two checks. *)
Lemma handler_origin_checks (corsAnywhere : Options.t) (req : Req.t) (location : Url) :
  reaches_origin_checks corsAnywhere req location ->
  let origin := origin_of req in
  let cors_headers := cors_headers_of corsAnywhere req in
  let blacklisted := includes origin (Options.originBlacklist corsAnywhere) in
  let not_whitelisted :=
    negb (Nat.eqb (List.length (Options.originWhitelist corsAnywhere)) 0) &&
    negb (includes origin (Options.originWhitelist corsAnywhere)) in
  (blacklisted = true ->
   handler corsAnywhere req = blacklisted_reply cors_headers origin) /\
  (blacklisted = false -> not_whitelisted = true ->
   handler corsAnywhere req = not_whitelisted_reply cors_headers origin) /\
  (blacklisted = false -> not_whitelisted = false ->
   forall r, handler corsAnywhere req = Responded r -> Response.status r <> 403).
Proof.
  intros (Hmethod & Hparse & Hhook & Hprobe & Hport & Hhost & Hreq).
  cbv zeta.
  rewrite <- (origin_of_checked corsAnywhere req).
  unfold handler, cors_headers_of, checked_request in *. cbv zeta.
  destruct (withCORS_request [] (Req.with_state (initial_state corsAnywhere) req))
    as (Hm & Hu & _ & _ & _).
  destruct (withCORS [] (Req.with_state (initial_state corsAnywhere) req))
    as [cors_headers req1].
  cbn [fst snd Req.method Req.url Req.with_state] in *.
  rewrite Hm, Hu, Hmethod, Hparse, Hhook, Hprobe, Hport, Hreq.
  apply orb_true_iff in Hhost.
  assert (negb (explicit_scheme (Req.url req)) &&
          negb (isValidHostName (js_str (hostname location))) = false) as ->.
  { destruct Hhost as [-> | ->]; [reflexivity | apply andb_false_r]. }
  cbn [negb].
  repeat split.
  - intros ->. reflexivity.
  - intros -> ->. reflexivity.
  - intros -> -> r. unfold reply.
    repeat match goal with
           | |- context [if ?c then _ else _] => destruct c eqn:?
           | |- context [match proxyRequest ?x with _ => _ end] =>
               destruct (proxyRequest x) eqn:?
           end;
      intros H; try discriminate; injection H as <-; cbn [Response.status]; lia.
Qed.

(** C6 (amended).  For every request that reaches the origin checks and
    whose [Origin] header value is in both the blacklist and the
    whitelist, the handler responds 403 Forbidden with the blacklist
    body. *)
Theorem blacklist_precedes_whitelist
    (corsAnywhere : Options.t) (req : Req.t) (location : Url) (origin : string) :
  reaches_origin_checks corsAnywhere req location ->
  Obj.get "origin" (Req.headers req) = Some origin ->
  In origin (Options.originBlacklist corsAnywhere) ->
  In origin (Options.originWhitelist corsAnywhere) ->
  handler corsAnywhere req =
  blacklisted_reply (cors_headers_of corsAnywhere req) origin.
Proof.
  intros Hreach Hget Hblack _.
  destruct (handler_origin_checks _ _ _ Hreach) as (H & _).
  assert (origin_of req = origin) as E by (unfold origin_of; rewrite Hget; reflexivity).
  rewrite E in H. apply H. apply includes_In. exact Hblack.
Qed.

(** C10 (amended).  For every request without an [Origin] header that
    reaches the origin checks, the origin is the empty string: the
    request is rejected 403 by the blacklist exactly when the blacklist
    contains the empty string, and otherwise rejected 403 by the
    whitelist exactly when the whitelist is non-empty and does not
    contain the empty string. *)
Theorem missing_origin_is_empty_string
    (corsAnywhere : Options.t) (req : Req.t) (location : Url) :
  reaches_origin_checks corsAnywhere req location ->
  Obj.get "origin" (Req.headers req) = None ->
  let cors_headers := cors_headers_of corsAnywhere req in
  origin_of req = "" /\
  (handler corsAnywhere req = blacklisted_reply cors_headers "" <->
   In "" (Options.originBlacklist corsAnywhere)) /\
  (handler corsAnywhere req = not_whitelisted_reply cors_headers "" <->
   ~ In "" (Options.originBlacklist corsAnywhere) /\
   Options.originWhitelist corsAnywhere <> [] /\
   ~ In "" (Options.originWhitelist corsAnywhere)).
Proof.
  intros Hreach Hget. cbv zeta.
  assert (origin_of req = "") as E by (unfold origin_of; rewrite Hget; reflexivity).
  destruct (handler_origin_checks _ _ _ Hreach) as (Hb & Hw & Hpass).
  rewrite E in Hb, Hw, Hpass.
  split; [exact E|].
  destruct (includes "" (Options.originBlacklist corsAnywhere)) eqn:Eb.
  - assert (In "" (Options.originBlacklist corsAnywhere)) as Hin by (apply includes_In; exact Eb).
    rewrite (Hb eq_refl). split.
    + split; [intros _; exact Hin | reflexivity].
    + split.
      * intros H. unfold blacklisted_reply, not_whitelisted_reply, reply in H.
        exfalso. injection H as H. revert H. unfold dq. simpl. discriminate.
      * intros (Hn & _). contradiction.
  - assert (~ In "" (Options.originBlacklist corsAnywhere)) as Hnin.
    { intros Hin. apply includes_In in Hin. congruence. }
    destruct (negb (Nat.eqb (List.length (Options.originWhitelist corsAnywhere)) 0) &&
              negb (includes "" (Options.originWhitelist corsAnywhere))) eqn:Ew.
    + rewrite (Hw eq_refl eq_refl).
      apply andb_true_iff in Ew. destruct Ew as [Ew1 Ew2].
      split.
      * split; [|intros Hin; contradiction].
        intros H. unfold blacklisted_reply, not_whitelisted_reply, reply in H.
        exfalso. injection H as H. revert H. unfold dq. simpl. discriminate.
      * split; [|reflexivity]. intros _. split; [exact Hnin|]. split.
        -- intros Hnil. rewrite Hnil in Ew1. discriminate.
        -- intros Hin. apply includes_In in Hin. rewrite Hin in Ew2. discriminate.
    + specialize (Hpass eq_refl eq_refl). split.
      * split; [|intros Hin; contradiction].
        intros H. exfalso. apply (Hpass _ H). reflexivity.
      * split.
        -- intros H. exfalso. apply (Hpass _ H). reflexivity.
        -- intros (_ & Hne & Hnw). exfalso.
           apply andb_false_iff in Ew. destruct Ew as [Ew | Ew].
           ++ apply negb_false_iff, Nat.eqb_eq in Ew.
              destruct (Options.originWhitelist corsAnywhere); [congruence | discriminate].
           ++ apply negb_false_iff, includes_In in Ew. contradiction.
Qed.

(** *** [parseURL] *)

Lemma startsWith_slashes (s : string) :
  startsWith "//" s = true -> exists r, s = "//" ++ r.
Proof.
  unfold startsWith. destruct s as [|a [|b r]]; cbn [String.prefix]; intros H;
    repeat match type of H with
           | context [ascii_dec ?x ?y] => destruct (ascii_dec x y)
           end;
    try discriminate.
  subst. eexists. reflexivity.
Qed.

(** The text handed to [url.parse] for an input without scheme starts
    with the scheme chosen from the captured port, followed by [//]. *)
Lemma normalize_without_scheme (req_url text : string) (m : UrlPattern.Match) :
  UrlPattern.exec req_url = Some m ->
  UrlPattern.m_protocol m = None ->
  normalize req_url = inr text ->
  exists rest,
    text = (if strict_eq (UrlPattern.m_port m) "443" then "https://" else "http://") ++ rest.
Proof.
  intros Hexec Hproto. unfold normalize. rewrite Hexec, Hproto. cbn [truthy negb].
  destruct (startsWith_i "https:" req_url || startsWith_i "http:" req_url); [discriminate|].
  intros H. injection H as <-.
  destruct (startsWith "//" req_url) eqn:E; cbn [negb].
  - destruct (startsWith_slashes _ E) as [r ->]. exists r.
    destruct (strict_eq (UrlPattern.m_port m) "443"); reflexivity.
  - exists req_url. destruct (strict_eq (UrlPattern.m_port m) "443"); reflexivity.
Qed.

Lemma strict_eq_iff (v : option string) (s : string) :
  strict_eq v s = true <-> v = Some s.
Proof.
  destruct v as [x|]; simpl.
  - rewrite String.eqb_eq. split; congruence.
  - split; discriminate.
Qed.

(** C4.  For every input without scheme prefix that [parseURL] accepts,
    the scheme of the resulting URL is [https:] if and only if the
    captured port is exactly [443], and [http:] otherwise.  [url.parse]
    is assumed to report the scheme its argument starts with. *)
Theorem scheme_inferred_from_port
    (req_url : string) (m : UrlPattern.Match) (parsed : Url) :
  (forall rest, protocol (url_parse ("http://" ++ rest)) = Some "http:") ->
  (forall rest, protocol (url_parse ("https://" ++ rest)) = Some "https:") ->
  UrlPattern.exec req_url = Some m ->
  UrlPattern.m_protocol m = None ->
  parseURL req_url = Some parsed ->
  (protocol parsed = Some "https:" <-> UrlPattern.m_port m = Some "443") /\
  (UrlPattern.m_port m <> Some "443" -> protocol parsed = Some "http:").
Proof.
  intros Hhttp Hhttps Hexec Hproto. unfold parseURL, parseURL_steps.
  destruct (normalize req_url) as [why | text] eqn:En; [discriminate|].
  destruct (normalize_without_scheme _ _ _ Hexec Hproto En) as [rest ->].
  destruct (negb (truthy (hostname (url_parse _)))); [discriminate|].
  intros H. injection H as <-.
  destruct (strict_eq (UrlPattern.m_port m) "443") eqn:E.
  - apply strict_eq_iff in E. rewrite Hhttps. split.
    + split; intros _; [exact E | reflexivity].
    + intros H. contradiction.
  - rewrite Hhttp. split.
    + split; [discriminate|]. intros H. apply strict_eq_iff in H. congruence.
    + reflexivity.
Qed.

(** C9.  [parseURL] returns [null] for [http:/onlyone] and for [:1/]:
    the first is stopped by the guard for inputs that start with a
    scheme token while the pattern bound no scheme, the second by the
    empty host name that [url.parse] reports for [http://:1/]. *)
Theorem malformed_inputs_are_rejected :
  truthy (hostname (url_parse "http://:1/")) = false ->
  (parseURL_steps "http:/onlyone" = inl SchemeWithoutHost /\
   parseURL "http:/onlyone" = None) /\
  (normalize ":1/" = inr "http://:1/" /\
   parseURL_steps ":1/" = inl EmptyHostname /\
   parseURL ":1/" = None).
Proof.
  intros H.
  assert (normalize "http:/onlyone" = inl SchemeWithoutHost) as E1 by reflexivity.
  assert (normalize ":1/" = inr "http://:1/") as E2 by reflexivity.
  unfold parseURL, parseURL_steps. rewrite E1, E2, H. cbn [negb].
  repeat split.
Qed.

(** *** Following redirects *)

Lemma toString_inj (m n : nat) : toString m = toString n -> m = n.
Proof.
  unfold toString. intros H.
  assert (Some (Nat.to_uint m) = Some (Nat.to_uint n)) as E.
  { rewrite <- !NilEmpty.usu. rewrite H. reflexivity. }
  injection E as E. apply (f_equal Nat.of_uint) in E.
  rewrite !DecimalNat.Unsigned.of_to in E. exact E.
Qed.

Lemma redirect_header_neq (m n : nat) :
  m <> n -> (redirect_header m =? redirect_header n) = false.
Proof.
  intros H. apply String.eqb_neq. intros E. apply H.
  unfold redirect_header in E. cbn [append] in E.
  injection E as E. apply toString_inj. exact E.
Qed.

Lemma redirect_header_not_request_url (n : nat) :
  (redirect_header n =? "x-request-url") = false.
Proof. reflexivity. Qed.

(** A followed hop: status 302, a non-empty [Location] that resolves
    to an accepted URL, and the redirect limit not yet reached. *)
Lemma onProxyResponse_follow (hop : ProxyRes.t) (req : Req.t) (res : Headers)
    (current parsedLocation : Url) :
  let requestState := Req.corsAnywhereRequestState req in
  let locationHeader := Obj.get "location" (ProxyRes.headers hop) in
  let absolute := url_resolve (href current) (js_str locationHeader) in
  location requestState = Some current ->
  ProxyRes.statusCode hop = 302 ->
  truthy locationHeader = true ->
  parseURL absolute = Some parsedLocation ->
  S (followed_so_far requestState) <= maxRedirects requestState ->
  exists res1 req1,
    onProxyResponse hop req res = Some (Reissue res1 req1) /\
    location (Req.corsAnywhereRequestState req1) = Some parsedLocation /\
    redirectCount_ (Req.corsAnywhereRequestState req1) =
      Some (S (followed_so_far requestState)) /\
    maxRedirects (Req.corsAnywhereRequestState req1) = maxRedirects requestState /\
    proxyBaseUrl (Req.corsAnywhereRequestState req1) = proxyBaseUrl requestState /\
    Obj.get (redirect_header (S (followed_so_far requestState))) res1 =
      Some ("302 " ++ absolute) /\
    forall j, j <> S (followed_so_far requestState) ->
              Obj.get (redirect_header j) res1 = Obj.get (redirect_header j) res.
Proof.
  cbv zeta. intros Hloc Hstatus Htruthy Hparse Hle.
  unfold onProxyResponse. cbv zeta.
  rewrite Hloc, Hstatus, Htruthy, Hparse.
  change (is_redirect 302) with true. change (is_followed 302) with true. cbv iota.
  set (count := match redirectCount_ (Req.corsAnywhereRequestState req) with
                | Some n => n + 1
                | None => 1
                end).
  assert (count = S (followed_so_far (Req.corsAnywhereRequestState req))) as Hcount.
  { subst count. unfold followed_so_far.
    destruct (redirectCount_ (Req.corsAnywhereRequestState req)); lia. }
  cbn [maxRedirects set_redirectCount_].
  apply Nat.leb_le in Hle. rewrite Hcount, Hle.
  unfold proxyRequest.
  cbn [Req.corsAnywhereRequestState Req.with_state Req.with_url Req.with_headers
       Req.with_method location set_location set_redirectCount_ getProxyForUrl].
  set (staged0 := match redirectCount_ (Req.corsAnywhereRequestState req) with
                  | Some 0 | None => Obj.set "x-request-url" (href current) res
                  | Some (S _) => res
                  end).
  assert (forall j, Obj.get (redirect_header j) staged0 = Obj.get (redirect_header j) res)
    as Hstaged.
  { intros j. subst staged0.
    destruct (redirectCount_ (Req.corsAnywhereRequestState req)) as [[|c]|];
      rewrite ?get_set, ?redirect_header_not_request_url; reflexivity. }
  clearbody staged0.
  destruct (truthy (getProxyForUrl (Req.corsAnywhereRequestState req) (href parsedLocation)));
    do 2 eexists; (split; [reflexivity|]);
    cbn [call_req Req.corsAnywhereRequestState Req.with_url location redirectCount_
         maxRedirects proxyBaseUrl];
    repeat split;
    try (fold (redirect_header (S (followed_so_far (Req.corsAnywhereRequestState req))));
         rewrite get_set, String.eqb_refl; reflexivity);
    try (intros j Hj;
         fold (redirect_header (S (followed_so_far (Req.corsAnywhereRequestState req))));
         rewrite get_set, (redirect_header_neq _ _ Hj); apply Hstaged).
Qed.

Lemma staged_redirect_headers (requestState : RequestState) (v : string)
    (res : Headers) (j : nat) :
  Obj.get (redirect_header j)
    match redirectCount_ requestState with
    | Some 0 | None => Obj.set "x-request-url" v res
    | Some (S _) => res
    end = Obj.get (redirect_header j) res.
Proof.
  destruct (redirectCount_ requestState) as [[|c]|];
    rewrite ?get_set, ?redirect_header_not_request_url; reflexivity.
Qed.

(** A hop past the redirect limit: relayed with [Location] rewritten. *)
Lemma onProxyResponse_limit (hop : ProxyRes.t) (req : Req.t) (res : Headers)
    (current parsedLocation : Url) (base : string) :
  let requestState := Req.corsAnywhereRequestState req in
  let locationHeader := Obj.get "location" (ProxyRes.headers hop) in
  let absolute := url_resolve (href current) (js_str locationHeader) in
  location requestState = Some current ->
  proxyBaseUrl requestState = Some base ->
  ProxyRes.statusCode hop = 302 ->
  truthy locationHeader = true ->
  parseURL absolute = Some parsedLocation ->
  maxRedirects requestState < S (followed_so_far requestState) ->
  exists res' proxyRes' req',
    onProxyResponse hop req res = Some (Relay res' proxyRes' req') /\
    ProxyRes.statusCode proxyRes' = 302 /\
    Obj.get "location" (ProxyRes.headers proxyRes') = Some (base ++ "/" ++ absolute) /\
    (forall k, existsb (String.eqb k) relay_names = false ->
               Obj.get k (ProxyRes.headers proxyRes') = Obj.get k (ProxyRes.headers hop)) /\
    forall j, Obj.get (redirect_header j) res' = Obj.get (redirect_header j) res.
Proof.
  cbv zeta. intros Hloc Hbase Hstatus Htruthy Hparse Hlt.
  unfold onProxyResponse. cbv zeta.
  rewrite Hloc, Hstatus, Htruthy, Hparse, Hbase.
  change (is_redirect 302) with true. change (is_followed 302) with true. cbv iota.
  set (count := match redirectCount_ (Req.corsAnywhereRequestState req) with
                | Some n => n + 1
                | None => 1
                end).
  assert (count = S (followed_so_far (Req.corsAnywhereRequestState req))) as Hcount.
  { subst count. unfold followed_so_far.
    destruct (redirectCount_ (Req.corsAnywhereRequestState req)); lia. }
  cbn [maxRedirects set_redirectCount_ js_str].
  rewrite Hcount. apply Nat.leb_gt in Hlt. rewrite Hlt.
  rewrite relay_eq. cbv zeta.
  do 3 eexists. split; [reflexivity|].
  cbn [ProxyRes.statusCode ProxyRes.headers set_location_header].
  split; [exact Hstatus|]. split; [|split].
  - rewrite withCORS_other_header by reflexivity.
    rewrite get_set. cbn [String.eqb Ascii.eqb Bool.eqb].
    rewrite !get_delete. cbn [String.eqb Ascii.eqb Bool.eqb].
    rewrite get_set. cbn [String.eqb Ascii.eqb Bool.eqb]. reflexivity.
  - intros k Hk. unfold relay_names in Hk. rewrite existsb_app in Hk.
    apply orb_false_elim in Hk. destruct Hk as [Hk Hcors].
    cbn [existsb] in Hk.
    repeat (apply orb_false_elim in Hk; destruct Hk as [? Hk]).
    rewrite withCORS_other_header by exact Hcors.
    rewrite get_set, !get_delete, get_set.
    repeat match goal with
           | E : (k =? _) = false |- _ => rewrite E; clear E
           end.
    reflexivity.
  - intros j. apply staged_redirect_headers.
Qed.

(** A response that is no redirect: relayed with its status. *)
Lemma onProxyResponse_final (final : ProxyRes.t) (req : Req.t) (res : Headers)
    (current : Url) :
  location (Req.corsAnywhereRequestState req) = Some current ->
  is_redirect (ProxyRes.statusCode final) = false ->
  exists res' proxyRes' req',
    onProxyResponse final req res = Some (Relay res' proxyRes' req') /\
    ProxyRes.statusCode proxyRes' = ProxyRes.statusCode final /\
    forall j, Obj.get (redirect_header j) res' = Obj.get (redirect_header j) res.
Proof.
  intros Hloc Hstatus. unfold onProxyResponse. cbv zeta.
  rewrite Hloc, Hstatus. rewrite relay_eq. cbv zeta.
  do 3 eexists. split; [reflexivity|]. split; [reflexivity|].
  intros j. apply staged_redirect_headers.
Qed.

Lemma redirect_targets_cons (current : string) (hop : ProxyRes.t)
    (later : list ProxyRes.t) (targets : list string) :
  redirect_targets current (hop :: later) = Some targets ->
  exists parsedLocation rest,
    ProxyRes.statusCode hop = 302 /\
    truthy (Obj.get "location" (ProxyRes.headers hop)) = true /\
    parseURL (url_resolve current (js_str (Obj.get "location" (ProxyRes.headers hop)))) =
      Some parsedLocation /\
    redirect_targets (href parsedLocation) later = Some rest /\
    targets = url_resolve current (js_str (Obj.get "location" (ProxyRes.headers hop))) :: rest.
Proof.
  cbn [redirect_targets]. cbv zeta.
  destruct (Nat.eqb (ProxyRes.statusCode hop) 302) eqn:Es; [|discriminate].
  destruct (truthy (Obj.get "location" (ProxyRes.headers hop))) eqn:Et; [|discriminate].
  cbn [andb].
  destruct (parseURL _) as [parsedLocation|] eqn:Ep; [|discriminate].
  destruct (redirect_targets (href parsedLocation) later) as [rest|] eqn:Er; [|discriminate].
  intros H. injection H as <-. apply Nat.eqb_eq in Es.
  exists parsedLocation, rest. repeat split; assumption.
Qed.

(** Within the limit every hop is followed and the final response is
    relayed, with one debug header per hop. *)
Lemma exchange_within_limit (hops : list ProxyRes.t) :
  forall (req : Req.t) (res : Headers) (current : Url) (targets : list string)
         (final : ProxyRes.t),
    let requestState := Req.corsAnywhereRequestState req in
    let count := followed_so_far requestState in
    location requestState = Some current ->
    redirect_targets (href current) hops = Some targets ->
    count + List.length hops <= maxRedirects requestState ->
    is_redirect (ProxyRes.statusCode final) = false ->
    exists out,
      exchange req res (hops ++ [final]) = Some out /\
      ProxyRes.statusCode (upstream out) = ProxyRes.statusCode final /\
      (forall i, i < List.length hops ->
                 Obj.get (redirect_header (count + S i)) (staged out) =
                 Some ("302 " ++ nth i targets "")) /\
      (forall j, j <= count \/ count + List.length hops < j ->
                 Obj.get (redirect_header j) (staged out) = Obj.get (redirect_header j) res).
Proof.
  induction hops as [|hop later IH]; intros req res current targets final;
    cbv zeta; intros Hloc Htargets Hle Hfinal.
  - destruct (onProxyResponse_final final req res current Hloc Hfinal)
      as (res' & proxyRes' & req' & Hstep & Hstatus & Hstaged).
    cbn [app exchange]. rewrite Hstep. eexists. split; [reflexivity|].
    cbn [upstream staged]. split; [exact Hstatus|]. split.
    + intros i Hi. cbn [List.length] in Hi. lia.
    + intros j _. apply Hstaged.
  - destruct (redirect_targets_cons _ _ _ _ Htargets)
      as (parsedLocation & rest & Hs & Ht & Hp & Hrest & ->).
    cbn [List.length] in Hle.
    destruct (onProxyResponse_follow hop req res current parsedLocation Hloc Hs Ht Hp)
      as (res1 & req1 & Hstep & Hloc1 & Hcount1 & Hmax1 & _ & Hmine & Hothers); [lia|].
    assert (followed_so_far (Req.corsAnywhereRequestState req1) =
            S (followed_so_far (Req.corsAnywhereRequestState req))) as Hc.
    { unfold followed_so_far at 1. rewrite Hcount1. reflexivity. }
    destruct (IH req1 res1 parsedLocation rest final Hloc1 Hrest)
      as (out & Hex & Hstatus & Hdebug & Hkeep); [rewrite Hc, Hmax1; lia | exact Hfinal |].
    rewrite Hc in Hdebug, Hkeep.
    exists out. cbn [app exchange]. rewrite Hstep.
    split; [exact Hex|]. split; [exact Hstatus|]. split.
    + intros [|i] Hi; cbn [List.length nth] in *.
      * rewrite Hkeep by lia. rewrite Nat.add_1_r. exact Hmine.
      * replace (followed_so_far (Req.corsAnywhereRequestState req) + S (S i))
          with (S (followed_so_far (Req.corsAnywhereRequestState req)) + S i) by lia.
        apply Hdebug. lia.
    + intros j Hj. cbn [List.length] in Hj.
      rewrite Hkeep by lia. apply Hothers. lia.
Qed.

(** Past the limit the hop that exceeds it is relayed with a rewritten
    [Location]; the hops before it have been followed. *)
Lemma exchange_past_limit (hops : list ProxyRes.t) :
  forall (req : Req.t) (res : Headers) (current : Url) (targets : list string)
         (tail : list ProxyRes.t) (base : string),
    let requestState := Req.corsAnywhereRequestState req in
    let count := followed_so_far requestState in
    let limit := maxRedirects requestState in
    location requestState = Some current ->
    proxyBaseUrl requestState = Some base ->
    redirect_targets (href current) hops = Some targets ->
    count <= limit ->
    limit < count + List.length hops ->
    exists out hop absolute,
      exchange req res (hops ++ tail) = Some out /\
      nth_error hops (limit - count) = Some hop /\
      nth_error targets (limit - count) = Some absolute /\
      ProxyRes.statusCode (upstream out) = 302 /\
      Obj.get "location" (ProxyRes.headers (upstream out)) = Some (base ++ "/" ++ absolute) /\
      (forall k, existsb (String.eqb k) relay_names = false ->
                 Obj.get k (ProxyRes.headers (upstream out)) =
                 Obj.get k (ProxyRes.headers hop)) /\
      (forall i, i < limit - count ->
                 Obj.get (redirect_header (count + S i)) (staged out) =
                 Some ("302 " ++ nth i targets "")) /\
      (forall j, j <= count \/ limit < j ->
                 Obj.get (redirect_header j) (staged out) = Obj.get (redirect_header j) res).
Proof.
  induction hops as [|hop later IH]; intros req res current targets tail base;
    cbv zeta; intros Hloc Hbase Htargets Hle Hlt.
  - cbn [List.length] in Hlt. lia.
  - destruct (redirect_targets_cons _ _ _ _ Htargets)
      as (parsedLocation & rest & Hs & Ht & Hp & Hrest & ->).
    cbn [List.length] in Hlt.
    destruct (Nat.eq_dec (followed_so_far (Req.corsAnywhereRequestState req))
                         (maxRedirects (Req.corsAnywhereRequestState req))) as [E | NE].
    + destruct (onProxyResponse_limit hop req res current parsedLocation base
                  Hloc Hbase Hs Ht Hp)
        as (res' & proxyRes' & req' & Hstep & Hstatus & Hlocation & Hsame & Hstaged); [lia|].
      eexists. exists hop. eexists.
      cbn [app exchange]. rewrite Hstep.
      split; [reflexivity|].
      replace (maxRedirects (Req.corsAnywhereRequestState req) -
               followed_so_far (Req.corsAnywhereRequestState req)) with 0 by lia.
      cbn [nth_error upstream staged].
      repeat split; try assumption.
      * intros i Hi. lia.
      * intros j _. apply Hstaged.
    + destruct (onProxyResponse_follow hop req res current parsedLocation Hloc Hs Ht Hp)
        as (res1 & req1 & Hstep & Hloc1 & Hcount1 & Hmax1 & Hbase1 & Hmine & Hothers); [lia|].
      assert (followed_so_far (Req.corsAnywhereRequestState req1) =
              S (followed_so_far (Req.corsAnywhereRequestState req))) as Hc.
      { unfold followed_so_far at 1. rewrite Hcount1. reflexivity. }
      rewrite <- Hbase1 in Hbase.
      destruct (IH req1 res1 parsedLocation rest tail base Hloc1 Hbase Hrest)
        as (out & hop' & absolute & Hex & Hhop & Habs & Hstatus & Hlocation & Hsame
            & Hdebug & Hkeep); [rewrite Hc, Hmax1; lia | rewrite Hc, Hmax1; lia |].
      rewrite Hc, Hmax1 in *.
      exists out, hop', absolute. cbn [app exchange]. rewrite Hstep.
      replace (maxRedirects (Req.corsAnywhereRequestState req) -
               followed_so_far (Req.corsAnywhereRequestState req))
        with (S (maxRedirects (Req.corsAnywhereRequestState req) -
                 S (followed_so_far (Req.corsAnywhereRequestState req)))) by lia.
      cbn [nth_error].
      repeat split; try assumption.
      * intros [|i] Hi; cbn [nth].
        -- rewrite Hkeep by lia. rewrite Nat.add_1_r. exact Hmine.
        -- replace (followed_so_far (Req.corsAnywhereRequestState req) + S (S i))
             with (S (followed_so_far (Req.corsAnywhereRequestState req)) + S i) by lia.
           apply Hdebug. lia.
      * intros j Hj. rewrite Hkeep by lia. apply Hothers. lia.
Qed.

(** The relay path leaves every upstream header it does not name as
    the upstream sent it. *)
Lemma onProxyResponse_relay_other (proxyRes : ProxyRes.t) (req : Req.t) (res : Headers)
    (res' : Headers) (proxyRes' : ProxyRes.t) (req' : Req.t) (k : string) :
  onProxyResponse proxyRes req res = Some (Relay res' proxyRes' req') ->
  existsb (String.eqb k) relay_names = false ->
  Obj.get k (ProxyRes.headers proxyRes') = Obj.get k (ProxyRes.headers proxyRes).
Proof.
  intros H Hk.
  destruct (onProxyResponse_relay_inv _ _ _ _ _ _ H)
    as (res0 & proxyRes0 & req0 & final_url & Hrelay & _ & Hp).
  rewrite relay_eq in Hrelay. cbv zeta in Hrelay. injection Hrelay as _ <- _.
  cbn [ProxyRes.headers].
  unfold relay_names in Hk. rewrite existsb_app in Hk.
  apply orb_false_elim in Hk. destruct Hk as [Hk Hcors].
  cbn [existsb] in Hk.
  repeat (apply orb_false_elim in Hk; destruct Hk as [? Hk]).
  rewrite withCORS_other_header by exact Hcors.
  rewrite get_set, !get_delete.
  destruct Hp as [-> | (v & ->)]; cbn [ProxyRes.headers set_location_header];
    rewrite ?get_set;
    repeat match goal with
           | E : (k =? _) = false |- _ => rewrite E; clear E
           end; reflexivity.
Qed.

Lemma toLowerCase_app (a b : string) :
  toLowerCase (a ++ b) = toLowerCase a ++ toLowerCase b.
Proof.
  induction a as [|c a IH]; simpl; [reflexivity | rewrite IH; reflexivity].
Qed.

Lemma prefix_app (p s : string) : String.prefix p (p ++ s) = true.
Proof.
  induction p as [|c p IH]; [destruct s; reflexivity|].
  cbn [append String.prefix]. destruct (ascii_dec c c); [exact IH | contradiction].
Qed.

Lemma carries_debug_header_get (proxyRes : ProxyRes.t) (j : nat) :
  carries_debug_header proxyRes = false ->
  Obj.get (redirect_header j) (ProxyRes.headers proxyRes) = None.
Proof.
  intros H.
  destruct (Obj.get (redirect_header j) (ProxyRes.headers proxyRes)) as [v|] eqn:E;
    [|reflexivity].
  assert (Obj.has (redirect_header j) (ProxyRes.headers proxyRes) = true) as Hhas
    by (rewrite has_get, E; reflexivity).
  unfold Obj.has in Hhas. apply existsb_exists in Hhas.
  destruct Hhas as (key & Hin & Heq). apply String.eqb_eq in Heq. subst key.
  assert (carries_debug_header proxyRes = true) as Hc; [|congruence].
  unfold carries_debug_header. apply existsb_exists.
  exists (redirect_header j). split; [exact Hin|].
  unfold redirect_header, startsWith. rewrite toLowerCase_app.
  exact (prefix_app "x-cors-redirect-" (toLowerCase (toString j))).
Qed.

(** The response the client receives is one of the upstream's, and has
    a debug header among its own headers only if the upstream sent
    one. *)
Lemma exchange_upstream_debug_headers (script : list ProxyRes.t) :
  forall (req : Req.t) (res : Headers) (out : Relayed) (j : nat),
    forallb (fun proxyRes => negb (carries_debug_header proxyRes)) script = true ->
    exchange req res script = Some out ->
    Obj.get (redirect_header j) (ProxyRes.headers (upstream out)) = None.
Proof.
  induction script as [|proxyRes later IH]; intros req res out j Hclean;
    cbn [exchange]; [discriminate|].
  cbn [forallb] in Hclean. apply andb_true_iff in Hclean. destruct Hclean as [Hfirst Hlater].
  apply negb_true_iff in Hfirst.
  destruct (onProxyResponse proxyRes req res) as [[res' proxyRes' req' | res' req']|] eqn:E;
    [| apply IH; exact Hlater | discriminate].
  intros H. injection H as <-. cbn [upstream].
  rewrite (onProxyResponse_relay_other _ _ _ _ _ _ _ E) by reflexivity.
  apply carries_debug_header_get. exact Hfirst.
Qed.

(** C2 (amended).  An upstream answers a fresh proxied request with
    302, each time with a [Location] that resolves to an accepted URL,
    once per element of [hops], and then with 200; none of its
    responses has a header of its own named like a debug header.  If
    the number of hops is at most [maxRedirects], the client receives
    the final 200 response, and the headers it receives hold the debug
    headers [X-CORS-Redirect-1] to [X-CORS-Redirect-N] and no further
    one.  Otherwise it receives the redirect response number
    [maxRedirects + 1], the last one the proxy fetched, unchanged but
    for the headers of the relay path, with [Location] rewritten to
    [proxyBaseUrl + '/' + absoluteLocation] and the debug headers of
    the followed hops only. *)
Theorem redirect_chain_outcome
    (req : Req.t) (start : Url) (base : string)
    (hops : list ProxyRes.t) (targets : list string) (final : ProxyRes.t) :
  let requestState := Req.corsAnywhereRequestState req in
  let N := List.length hops in
  let limit := maxRedirects requestState in
  location requestState = Some start ->
  proxyBaseUrl requestState = Some base ->
  redirectCount_ requestState = None ->
  redirect_targets (href start) hops = Some targets ->
  ProxyRes.statusCode final = 200 ->
  forallb (fun proxyRes => negb (carries_debug_header proxyRes)) (hops ++ [final]) = true ->
  (N <= limit ->
   exists out,
     exchange req [] (hops ++ [final]) = Some out /\
     ProxyRes.statusCode (upstream out) = 200 /\
     (forall i, 1 <= i <= N ->
                Obj.get (redirect_header i) (client_headers out) =
                Some ("302 " ++ nth (i - 1) targets "")) /\
     (forall j, j = 0 \/ N < j -> Obj.get (redirect_header j) (client_headers out) = None)) /\
  (limit < N ->
   exists out hop absolute,
     exchange req [] (hops ++ [final]) = Some out /\
     nth_error hops limit = Some hop /\
     nth_error targets limit = Some absolute /\
     ProxyRes.statusCode (upstream out) = 302 /\
     Obj.get "location" (client_headers out) = Some (base ++ "/" ++ absolute) /\
     (forall k, existsb (String.eqb k) relay_names = false ->
                Obj.get k (ProxyRes.headers (upstream out)) =
                Obj.get k (ProxyRes.headers hop)) /\
     (forall i, 1 <= i <= limit ->
                Obj.get (redirect_header i) (client_headers out) =
                Some ("302 " ++ nth (i - 1) targets "")) /\
     (forall j, j = 0 \/ limit < j -> Obj.get (redirect_header j) (client_headers out) = None)).
Proof.
  cbv zeta. intros Hloc Hbase Hcount Htargets Hfinal Hclean.
  assert (followed_so_far (Req.corsAnywhereRequestState req) = 0) as Hzero.
  { unfold followed_so_far. rewrite Hcount. reflexivity. }
  assert (forall out j, exchange req [] (hops ++ [final]) = Some out ->
            Obj.get (redirect_header j) (client_headers out) =
            Obj.get (redirect_header j) (staged out)) as Hclient.
  { intros out j Hex. rewrite get_client_headers.
    rewrite (exchange_upstream_debug_headers _ _ _ _ j Hclean Hex). reflexivity. }
  split; intros Hn.
  - destruct (exchange_within_limit hops req [] start targets final Hloc Htargets)
      as (out & Hex & Hstatus & Hdebug & Hkeep);
      [rewrite Hzero; exact Hn | rewrite Hfinal; reflexivity |].
    rewrite Hzero in Hdebug, Hkeep. cbn [Nat.add] in Hdebug, Hkeep.
    exists out. split; [exact Hex|]. split; [congruence|]. split.
    + intros i Hi. rewrite (Hclient _ _ Hex). destruct i as [|i]; [lia|].
      cbn [Nat.sub]. rewrite Nat.sub_0_r. apply Hdebug. lia.
    + intros j Hj. rewrite (Hclient _ _ Hex). rewrite Hkeep by lia. reflexivity.
  - destruct (exchange_past_limit hops req [] start targets [final] base
                Hloc Hbase Htargets)
      as (out & hop & absolute & Hex & Hhop & Habs & Hstatus & Hlocation & Hsame
          & Hdebug & Hkeep);
      [rewrite Hzero; lia | rewrite Hzero; exact Hn |].
    rewrite Hzero in *. rewrite Nat.sub_0_r in *. cbn [Nat.add] in Hdebug.
    exists out, hop, absolute.
    split; [exact Hex|]. split; [exact Hhop|]. split; [exact Habs|].
    split; [exact Hstatus|].
    split; [rewrite get_client_headers, Hlocation; reflexivity|].
    split; [exact Hsame|]. split.
    + intros i Hi. rewrite (Hclient _ _ Hex). destruct i as [|i]; [lia|].
      cbn [Nat.sub]. rewrite Nat.sub_0_r. apply Hdebug. lia.
    + intros j Hj. rewrite (Hclient _ _ Hex). rewrite Hkeep by lia. reflexivity.
Qed.

End Program.


(** ** The program on concrete requests

    The program is instantiated with the reference parser of [NodeUrl]
    and the collaborators of [Sample]. *)

Local Notation "'node_handler'" :=
  (handler NodeUrl.parse Sample.tld Sample.no_ip Sample.no_ip [] Sample.readFile).
Local Notation "'node_sent'" :=
  (sent NodeUrl.parse NodeUrl.resolve Sample.tld Sample.no_ip Sample.no_ip []
        Sample.readFile).
Local Notation "'node_reaches'" :=
  (reaches_origin_checks NodeUrl.parse Sample.tld Sample.no_ip Sample.no_ip).
Local Notation "'node_exchange'" := (exchange NodeUrl.parse NodeUrl.resolve).
Local Notation "'node_onProxyResponse'" :=
  (onProxyResponse NodeUrl.parse NodeUrl.resolve).
Local Notation "'node_parseURL'" := (parseURL NodeUrl.parse).

(** *** The pattern *)

Example exec_plain :
  UrlPattern.exec "example.com:443/a?b" =
  Some {| UrlPattern.m_protocol := None; UrlPattern.m_host := "example.com:443";
          UrlPattern.m_hostname := "example.com"; UrlPattern.m_port := Some "443";
          UrlPattern.m_path := "/a?b" |}.
Proof. reflexivity. Qed.

Example exec_scheme :
  UrlPattern.exec "HTTPS://Example.com/" =
  Some {| UrlPattern.m_protocol := Some "HTTPS:"; UrlPattern.m_host := "Example.com";
          UrlPattern.m_hostname := "Example.com"; UrlPattern.m_port := None;
          UrlPattern.m_path := "/" |}.
Proof. reflexivity. Qed.

Example exec_onlyone :
  UrlPattern.exec "http:/onlyone" =
  Some {| UrlPattern.m_protocol := None; UrlPattern.m_host := "http:";
          UrlPattern.m_hostname := "http"; UrlPattern.m_port := Some "";
          UrlPattern.m_path := "/onlyone" |}.
Proof. reflexivity. Qed.

Example exec_colon1 :
  UrlPattern.exec ":1/" =
  Some {| UrlPattern.m_protocol := None; UrlPattern.m_host := ":1";
          UrlPattern.m_hostname := ":1"; UrlPattern.m_port := None;
          UrlPattern.m_path := "/" |}.
Proof. reflexivity. Qed.

Example exec_long_port :
  UrlPattern.exec "example.com:123456/" =
  Some {| UrlPattern.m_protocol := None; UrlPattern.m_host := "example.com:123456";
          UrlPattern.m_hostname := "example.com:123456"; UrlPattern.m_port := None;
          UrlPattern.m_path := "/" |}.
Proof. reflexivity. Qed.

Example exec_slashes_only : UrlPattern.exec "///" = None.
Proof. reflexivity. Qed.

Example parse_plain :
  node_parseURL "example.com/a/b?x=1" =
  Some {| protocol := Some "http:"; host := Some "example.com"; port := None;
          hostname := Some "example.com"; path := "/a/b?x=1";
          href := "http://example.com/a/b?x=1" |}.
Proof. reflexivity. Qed.

(** *** The reference parser meets the assumptions on [url.parse] *)

Lemma node_parse_http (rest : string) :
  protocol (NodeUrl.parse ("http://" ++ rest)) = Some "http:".
Proof.
  unfold NodeUrl.parse.
  change (NodeUrl.split_protocol ("http://" ++ rest)) with (Some "http:", "//" ++ rest).
  cbv iota beta.
  change (UrlPattern.slashes ("//" ++ rest)) with (Some rest).
  cbv iota beta.
  destruct (NodeUrl.split_host rest) as [h tail].
  destruct (NodeUrl.split_port h) as [name prt]. reflexivity.
Qed.

Lemma node_parse_https (rest : string) :
  protocol (NodeUrl.parse ("https://" ++ rest)) = Some "https:".
Proof.
  unfold NodeUrl.parse.
  change (NodeUrl.split_protocol ("https://" ++ rest)) with (Some "https:", "//" ++ rest).
  cbv iota beta.
  change (UrlPattern.slashes ("//" ++ rest)) with (Some rest).
  cbv iota beta.
  destruct (NodeUrl.split_host rest) as [h tail].
  destruct (NodeUrl.split_port h) as [name prt]. reflexivity.
Qed.

(** *** C1 *)



(** *** C2 *)

(** With a limit of one redirect and three hops the client receives the
    second redirect response, not the third and last one. *)
Lemma limit_relays_next_hop_not_last :
  maxRedirects (Req.corsAnywhereRequestState (Sample.in_flight 1)) = 1 /\
  redirect_targets NodeUrl.parse NodeUrl.resolve "http://a.example/" Sample.three_hops =
    Some ["http://b.example/"; "http://c.example/"; "http://d.example/"] /\
  option_map (fun out => Obj.get "location" (client_headers out))
             (node_exchange (Sample.in_flight 1) [] (Sample.three_hops ++ [Sample.ok])%list) =
    Some (Some "http://proxy.example/http://c.example/") /\
  Some "http://proxy.example/http://c.example/" <>
    Some ("http://proxy.example" ++ "/" ++ "http://d.example/").
Proof.
  repeat split; try reflexivity. discriminate.
Qed.

Lemma redirect_chain_outcome_witness :
  exists out,
    node_exchange (Sample.in_flight 5) [] (Sample.three_hops ++ [Sample.ok])%list = Some out /\
    ProxyRes.statusCode (upstream out) = 200 /\
    (forall i, 1 <= i <= 3 ->
               Obj.get (redirect_header i) (client_headers out) =
               Some ("302 " ++ nth (i - 1)
                       ["http://b.example/"; "http://c.example/"; "http://d.example/"] "")) /\
    (forall j, j = 0 \/ 3 < j -> Obj.get (redirect_header j) (client_headers out) = None).
Proof.
  refine (proj1 (redirect_chain_outcome NodeUrl.parse NodeUrl.resolve
                   (Sample.in_flight 5) (NodeUrl.parse "http://a.example/")
                   "http://proxy.example" Sample.three_hops
                   ["http://b.example/"; "http://c.example/"; "http://d.example/"]
                   Sample.ok eq_refl eq_refl eq_refl eq_refl eq_refl eq_refl) _).
  vm_compute. lia.
Defined.

(** *** C3 *)

Lemma temporary_redirects_are_relayed_witness :
  exists res' proxyRes' req',
    node_onProxyResponse (Sample.redirect 307 "http://b.example/") (Sample.in_flight 5) [] =
      Some (Relay res' proxyRes' req') /\
    ProxyRes.statusCode proxyRes' = 307 /\
    Obj.get "location" (ProxyRes.headers proxyRes') =
      Some ("http://proxy.example" ++ "/" ++
            NodeUrl.resolve "http://a.example/" "http://b.example/") /\
    Req.corsAnywhereRequestState req' = Req.corsAnywhereRequestState (Sample.in_flight 5).
Proof.
  apply (temporary_redirects_are_relayed NodeUrl.parse NodeUrl.resolve
           (Sample.redirect 307 "http://b.example/") (Sample.in_flight 5) []
           (NodeUrl.parse "http://a.example/") (NodeUrl.parse "http://b.example/")
           "http://proxy.example" "http://b.example/").
  - reflexivity.
  - reflexivity.
  - left. reflexivity.
  - reflexivity.
  - discriminate.
  - reflexivity.
Defined.

(** *** C4 *)

Lemma scheme_inferred_from_port_witness :
  (protocol (NodeUrl.parse "https://example.com:443/x") = Some "https:" <->
   Some "443" = Some "443") /\
  (Some "443" <> Some "443" ->
   protocol (NodeUrl.parse "https://example.com:443/x") = Some "http:").
Proof.
  apply (scheme_inferred_from_port NodeUrl.parse "example.com:443/x"
           {| UrlPattern.m_protocol := None; UrlPattern.m_host := "example.com:443";
              UrlPattern.m_hostname := "example.com"; UrlPattern.m_port := Some "443";
              UrlPattern.m_path := "/x" |}
           (NodeUrl.parse "https://example.com:443/x")).
  - exact node_parse_http.
  - exact node_parse_https.
  - reflexivity.
  - reflexivity.
  - reflexivity.
Defined.

(** *** C5 *)

Lemma relayed_response_has_no_cookies_witness :
  match node_onProxyResponse Sample.ok (Sample.in_flight 5) [] with
  | Some (Relay res' proxyRes' _) =>
      Obj.get "set-cookie" (ProxyRes.headers Sample.ok) = Some "id=1" /\
      Obj.get "set-cookie" (ProxyRes.headers proxyRes') = None /\
      Obj.get "set-cookie"
        (client_headers {| staged := res'; upstream := proxyRes' |}) = None
  | _ => False
  end.
Proof.
  destruct (node_onProxyResponse Sample.ok (Sample.in_flight 5) [])
    as [[res' proxyRes' req' | res' req'] | ] eqn:E.
  - split; [reflexivity|].
    exact (relayed_response_has_no_cookies NodeUrl.parse NodeUrl.resolve
             Sample.ok (Sample.in_flight 5) [] res' proxyRes' req' "set-cookie"
             E (or_introl eq_refl)).
  - vm_compute in E. discriminate.
  - vm_compute in E. discriminate.
Defined.

(** *** C6 *)

(** A pre-flight request from an origin that is in both lists is
    answered 200, not 403. *)
Lemma preflight_from_blacklisted_origin :
  let corsAnywhere :=
    Sample.options ["https://app.example"] ["https://app.example"] false in
  let req := Sample.request "OPTIONS" "/http://api.example.com/data"
               [("host", "proxy.example"); ("origin", "https://app.example")] in
  Obj.get "origin" (Req.headers req) = Some "https://app.example" /\
  In "https://app.example" (Options.originBlacklist corsAnywhere) /\
  In "https://app.example" (Options.originWhitelist corsAnywhere) /\
  node_handler corsAnywhere req =
    Responded {| Response.status := 200; Response.statusText := "";
                 Response.headers :=
                   [("Access-Control-Allow-Origin", "*");
                    ("Access-Control-Expose-Headers", "Access-Control-Allow-Origin")];
                 Response.body := "" |} /\
  node_handler corsAnywhere req <>
    blacklisted_reply (cors_headers_of corsAnywhere req) "https://app.example".
Proof.
  cbv zeta. split; [reflexivity|]. split; [left; reflexivity|].
  split; [left; reflexivity|]. split; [reflexivity|].
  vm_compute. discriminate.
Qed.

Lemma blacklist_precedes_whitelist_witness :
  let corsAnywhere :=
    Sample.options ["https://app.example"] ["https://app.example"] false in
  let req := Sample.request "GET" "/http://api.example.com/data"
               [("host", "proxy.example"); ("origin", "https://app.example")] in
  node_handler corsAnywhere req =
  blacklisted_reply (cors_headers_of corsAnywhere req) "https://app.example".
Proof.
  cbv zeta.
  apply (blacklist_precedes_whitelist NodeUrl.parse Sample.tld Sample.no_ip Sample.no_ip
           [] Sample.readFile _ _ (NodeUrl.parse "http://api.example.com/data")).
  - repeat split; reflexivity.
  - reflexivity.
  - left. reflexivity.
  - left. reflexivity.
Defined.

(** *** C7 *)

(** The same-origin redirect adds three headers after the list has been
    computed: the 301 response exposes none of them. *)
Lemma same_origin_redirect_exposes_too_little :
  let headers := [("Access-Control-Allow-Origin", "*");
                  ("Access-Control-Expose-Headers", "Access-Control-Allow-Origin");
                  ("consty", "origin"); ("cache-control", "private");
                  ("location", "http://api.example.com/data")] in
  node_handler (Sample.options [] [] true)
    (Sample.request "GET" "/http://api.example.com/data"
       [("host", "proxy.example"); ("origin", "http://api.example.com")]) =
  Responded {| Response.status := 301;
               Response.statusText := "Please use a direct request";
               Response.headers := headers; Response.body := "" |} /\
  Obj.get "Access-Control-Expose-Headers" headers = Some "Access-Control-Allow-Origin" /\
  join_comma (filter (fun name => negb (name =? "Access-Control-Expose-Headers"))
                     (Obj.keys headers)) =
    "Access-Control-Allow-Origin,consty,cache-control,location" /\
  Obj.get "Access-Control-Expose-Headers" headers <> Some (join_comma (Obj.keys headers)) /\
  Obj.get "Access-Control-Expose-Headers" headers <>
    Some (join_comma (filter (fun name => negb (name =? "Access-Control-Expose-Headers"))
                             (Obj.keys headers))).
Proof.
  cbv zeta. repeat split; try reflexivity; vm_compute; discriminate.
Qed.

(** *** C8 *)

(** A pre-flight as a browser sends it and Node delivers it: neither
    request header is echoed or removed. *)
Lemma withCORS_misses_lower_case_headers_witness :
  let request := Sample.request "OPTIONS" "/http://api.example.com/data"
                   [("host", "proxy.example"); ("origin", "http://app.example");
                    ("access-control-request-method", "PUT");
                    ("access-control-request-headers", "x-custom")] in
  Obj.get "access-control-request-method" (Req.headers request) = Some "PUT" /\
  Obj.get "access-control-request-headers" (Req.headers request) = Some "x-custom" /\
  snd (withCORS [] request) = request /\
  forall asked allowed, In (asked, allowed) echo_pairs ->
    Obj.get allowed (fst (withCORS [] request)) = None.
Proof.
  cbv zeta. split; [reflexivity|]. split; [reflexivity|].
  apply (withCORS_misses_lower_case_headers []). reflexivity.
Defined.

(** The reply of the handler to that pre-flight. *)
Example preflight_reply_allows_no_method :
  node_handler (Sample.options [] [] false)
    (Sample.request "OPTIONS" "/http://api.example.com/data"
       [("host", "proxy.example"); ("origin", "http://app.example");
        ("access-control-request-method", "PUT");
        ("access-control-request-headers", "x-custom")]) =
  Responded {| Response.status := 200; Response.statusText := "";
               Response.headers := [("Access-Control-Allow-Origin", "*");
                                    ("Access-Control-Expose-Headers",
                                     "Access-Control-Allow-Origin")];
               Response.body := "" |}.
Proof. reflexivity. Qed.

(** *** C9 *)

Lemma malformed_inputs_are_rejected_witness :
  (parseURL_steps NodeUrl.parse "http:/onlyone" = inl SchemeWithoutHost /\
   node_parseURL "http:/onlyone" = None) /\
  (normalize ":1/" = inr "http://:1/" /\
   parseURL_steps NodeUrl.parse ":1/" = inl EmptyHostname /\
   node_parseURL ":1/" = None).
Proof.
  apply (malformed_inputs_are_rejected NodeUrl.parse). reflexivity.
Defined.

(** *** C10 *)

(** A request without [Origin] header whose target lacks a slash is
    answered 400 although the blacklist contains the empty string and
    the non-empty whitelist does not. *)
Lemma missing_slash_precedes_origin_checks :
  let corsAnywhere := Sample.options [""] ["https://app.example"] false in
  let req := Sample.request "GET" "/http:/api.example.com" [("host", "proxy.example")] in
  Obj.get "origin" (Req.headers req) = None /\
  In "" (Options.originBlacklist corsAnywhere) /\
  Options.originWhitelist corsAnywhere <> [] /\
  ~ In "" (Options.originWhitelist corsAnywhere) /\
  node_handler corsAnywhere req =
    Responded {| Response.status := 400; Response.statusText := "Missing slash";
                 Response.headers :=
                   [("Access-Control-Allow-Origin", "*");
                    ("Access-Control-Expose-Headers", "Access-Control-Allow-Origin")];
                 Response.body :=
                   "The URL is invalid: two slashes are needed after the http(s):." |}.
Proof.
  cbv zeta. split; [reflexivity|]. split; [left; reflexivity|].
  split; [discriminate|]. split; [|reflexivity].
  intros [H | []]. discriminate.
Qed.

Lemma missing_origin_is_empty_string_witness :
  let corsAnywhere := Sample.options [] ["https://app.example"] false in
  let req := Sample.request "GET" "/http://api.example.com/data"
               [("host", "proxy.example")] in
  let cors_headers := cors_headers_of corsAnywhere req in
  origin_of req = "" /\
  (node_handler corsAnywhere req = blacklisted_reply cors_headers "" <->
   In "" (Options.originBlacklist corsAnywhere)) /\
  (node_handler corsAnywhere req = not_whitelisted_reply cors_headers "" <->
   ~ In "" (Options.originBlacklist corsAnywhere) /\
   Options.originWhitelist corsAnywhere <> [] /\
   ~ In "" (Options.originWhitelist corsAnywhere)).
Proof.
  cbv zeta.
  apply (missing_origin_is_empty_string NodeUrl.parse Sample.tld Sample.no_ip Sample.no_ip
           [] Sample.readFile _ _ (NodeUrl.parse "http://api.example.com/data")).
  - repeat split; reflexivity.
  - reflexivity.
Defined.
